(** * smartpole_privacy_protector: the pipeline control callbacks

    A shallow embedding of [smartpole_privacy_protector.c].  The file holds two
    programs that share their callbacks: [_main], a player around a parsed
    pipeline with a position slider, and [main], the CCTV viewer with three
    toggle buttons.  The callbacks are embedded as computations in a state
    monad over a [World]: the [CustomData] record the callbacks receive by
    pointer, the file-level statics, the widgets and element properties the
    callbacks write to, the answers the media engine gives to queries, and a
    chronological trace of every call made to GStreamer, GTK and stdio. *)

From Stdlib Require Import ZArith List String Ascii Floats Bool Lia.
From stdpp Require Import gmap strings.
Import ListNotations.

Open Scope string_scope.
Open Scope list_scope.
Open Scope Z_scope.

(** ** Machine types *)

Definition gint64 := Z.
Definition gulong := Z.
Definition gdouble := float.

(** [(gdouble) z]: the nearest binary64 value (round to nearest, ties to
    even), for every [z], negative ones included. *)
Definition gdouble_of_gint64 (z : gint64) : gdouble :=
  SF2Prim (binary_normalize prec emax z 0 false).

Definition INT64_MIN : Z := - 2 ^ 63.
Definition INT64_MAX : Z := 2 ^ 63 - 1.

(** [(gint64) f]: truncation toward zero.  C leaves the conversion of a value
    out of range (or of a NaN or an infinity) undefined; it is given the
    result of x86-64's [cvttsd2si], [INT64_MIN]. *)
Definition gint64_of_gdouble (f : gdouble) : gint64 :=
  match Prim2SF f with
  | S754_zero _ => 0
  | S754_finite s m e =>
      let a := if 0 <=? e then Z.pos m * 2 ^ e else Z.pos m / 2 ^ (- e) in
      let r := if s then - a else a in
      if (INT64_MIN <=? r) && (r <=? INT64_MAX) then r else INT64_MIN
  | _ => INT64_MIN
  end.

(** glib's [MIN] and [MAX] macros on doubles. *)
Definition MIN (a b : gdouble) : gdouble := if PrimFloat.ltb a b then a else b.
Definition MAX (a b : gdouble) : gdouble := if PrimFloat.ltb b a then a else b.

Definition nl : string := String (ascii_of_nat 10) EmptyString.
Definition crnl : string := String (ascii_of_nat 13) nl.

(** ** GStreamer's declarations used by the file

    The enumerations and macros come from GStreamer's headers; their values
    are the ones of GStreamer 1.x. *)

Inductive GstState : Set :=
| GST_STATE_VOID_PENDING
| GST_STATE_NULL
| GST_STATE_READY
| GST_STATE_PAUSED
| GST_STATE_PLAYING.

Definition GstState_value (s : GstState) : Z :=
  match s with
  | GST_STATE_VOID_PENDING => 0
  | GST_STATE_NULL => 1
  | GST_STATE_READY => 2
  | GST_STATE_PAUSED => 3
  | GST_STATE_PLAYING => 4
  end.

#[global] Instance GstState_eq_dec : EqDecision GstState.
Proof. solve_decision. Defined.

Definition GstState_eqb (a b : GstState) : bool := GstState_value a =? GstState_value b.
Definition GstState_ltb (a b : GstState) : bool := GstState_value a <? GstState_value b.

Definition gst_element_state_get_name (s : GstState) : string :=
  match s with
  | GST_STATE_VOID_PENDING => "VOID_PENDING"
  | GST_STATE_NULL => "NULL"
  | GST_STATE_READY => "READY"
  | GST_STATE_PAUSED => "PAUSED"
  | GST_STATE_PLAYING => "PLAYING"
  end.

Definition GST_SECOND : Z := 1000000000.
Definition GST_CLOCK_TIME_NONE : gint64 := -1.
Definition GST_CLOCK_TIME_IS_VALID (t : gint64) : bool := negb (t =? GST_CLOCK_TIME_NONE).

Definition GST_FORMAT_TIME : Z := 3.
Definition GST_SEEK_FLAG_FLUSH : Z := 1.
Definition GST_SEEK_FLAG_KEY_UNIT : Z := 4.
Definition GST_SEEK_TYPE_NONE : Z := 0.
Definition GST_SEEK_TYPE_SET : Z := 1.

(** Elements and widgets are referred to by name; [NULL] is [None]. *)
Definition GstElement := string.
Definition GtkWidget := string.

(** The messages the two programs connect to on the bus. *)
Inductive GstMessage : Type :=
| MsgError (src : GstElement) (err_message : string) (debug_info : option string)
| MsgEos (src : GstElement)
| MsgStateChanged (src : GstElement) (old_state new_state pending_state : GstState)
| MsgApplication (src : GstElement) (structure_name : string)
| MsgOther (src : GstElement).

(** ** The calls that leave the program *)

Inductive Effect : Type :=
| E_print (text : string)
| E_printerr (text : string)
| E_set_state (element : GstElement) (target : GstState)
| E_seek_simple (element : GstElement) (format flags : Z) (pos : gint64)
| E_seek (element : GstElement) (rate : gdouble) (format flags : Z)
         (start_type : Z) (start : gint64) (stop_type : Z) (stop : gint64)
| E_query_duration (element : GstElement)
| E_query_position (element : GstElement)
| E_signal_handler_block (handler_id : gulong)
| E_signal_handler_unblock (handler_id : gulong)
| E_range_set_range (lo hi : gdouble)
| E_range_set_value (v : gdouble)
| E_object_set (element : option GstElement) (property : string) (v : Z)
| E_button_set_label (button : GtkWidget) (label : string)
| E_dump_dot (bin : GstElement) (name : string).

Definition is_set_state (e : Effect) : bool :=
  match e with E_set_state _ _ => true | _ => false end.
Definition is_seek (e : Effect) : bool :=
  match e with E_seek_simple _ _ _ _ | E_seek _ _ _ _ _ _ _ _ => true | _ => false end.
Definition is_query_duration (e : Effect) : bool :=
  match e with E_query_duration _ => true | _ => false end.
Definition is_query_position (e : Effect) : bool :=
  match e with E_query_position _ => true | _ => false end.
Definition is_range_set_value (e : Effect) : bool :=
  match e with E_range_set_value _ => true | _ => false end.
Definition is_object_set (e : Effect) : bool :=
  match e with E_object_set _ _ _ => true | _ => false end.

(** The state last requested from the engine, if any. *)
Fixpoint last_requested_state (t : list Effect) : option GstState :=
  match t with
  | [] => None
  | e :: t' =>
      match last_requested_state t' with
      | Some s => Some s
      | None => match e with E_set_state _ s => Some s | _ => None end
      end
  end.

(** ** Data *)

(** The slider, a [GtkScale]: the range and value of its adjustment, and the
    one handler the program connects to it ([slider_cb] on "value-changed")
    with glib's block count of that handler. *)
Record GtkRange : Type := mkGtkRange {
  range_lower : gdouble;
  range_upper : gdouble;
  range_value : gdouble;
  value_changed_handler : option gulong;
  handler_block_count : nat
}.

Record CustomData : Type := mkCustomData {
  playbin : GstElement;
  slider : GtkRange;
  streams_list : string;
  slider_update_signal_id : gulong;
  state : GstState;
  duration : gint64
}.

(** What the media engine answers when asked now. *)
Record Engine : Type := mkEngine {
  eng_duration : option gint64;
  eng_position : option gint64;
  eng_seek_ok : bool
}.

Record World : Type := mkWorld {
  data : CustomData;
  _g_is_faceblur_onoff : Z;
  _g_is_facearea_onoff : Z;
  _g_is_numberplateblur_onoff : Z;
  properties : gmap (GstElement * string) Z;
  labels : gmap GtkWidget string;
  engine : Engine;
  trace : list Effect
}.

Definition set_data (d : CustomData) (w : World) : World :=
  mkWorld d (_g_is_faceblur_onoff w) (_g_is_facearea_onoff w)
          (_g_is_numberplateblur_onoff w) (properties w) (labels w) (engine w) (trace w).
Definition set_engine (e : Engine) (w : World) : World :=
  mkWorld (data w) (_g_is_faceblur_onoff w) (_g_is_facearea_onoff w)
          (_g_is_numberplateblur_onoff w) (properties w) (labels w) e (trace w).
Definition set_trace (t : list Effect) (w : World) : World :=
  mkWorld (data w) (_g_is_faceblur_onoff w) (_g_is_facearea_onoff w)
          (_g_is_numberplateblur_onoff w) (properties w) (labels w) (engine w) t.

Definition with_slider (r : GtkRange) (d : CustomData) : CustomData :=
  mkCustomData (playbin d) r (streams_list d) (slider_update_signal_id d) (state d) (duration d).
Definition with_state (s : GstState) (d : CustomData) : CustomData :=
  mkCustomData (playbin d) (slider d) (streams_list d) (slider_update_signal_id d) s (duration d).
Definition with_duration (t : gint64) (d : CustomData) : CustomData :=
  mkCustomData (playbin d) (slider d) (streams_list d) (slider_update_signal_id d) (state d) t.

(** ** The monad of the callbacks *)

Definition M (A : Type) : Type := World -> A * World.

Definition ret {A : Type} (a : A) : M A := fun w => (a, w).
Definition bind {A B : Type} (m : M A) (k : A -> M B) : M B :=
  fun w => let (a, w') := m w in k a w'.

Declare Scope cb_scope.
Delimit Scope cb_scope with cb.
Notation "x <- c ;; k" := (bind c (fun x => k))
  (at level 100, c at next level, right associativity) : cb_scope.
Notation "c ;; k" := (bind c (fun _ => k))
  (at level 100, right associativity) : cb_scope.
Open Scope cb_scope.

Definition run {A : Type} (m : M A) (w : World) : World := snd (m w).
Definition result {A : Type} (m : M A) (w : World) : A := fst (m w).

Definition get_data : M CustomData := fun w => (data w, w).
Definition put_data (d : CustomData) : M unit := fun w => (tt, set_data d w).
Definition get_engine : M Engine := fun w => (engine w, w).
Definition emit (e : Effect) : M unit := fun w => (tt, set_trace (trace w ++ [e]) w).
Definition when (b : bool) (m : M unit) : M unit := if b then m else ret tt.

(** The effects a computation adds to the trace. *)
Definition emitted {A : Type} (m : M A) (w : World) : list Effect :=
  skipn (length (trace w)) (trace (run m w)).

(** ** Calls into stdio, GStreamer and GTK

    Each call is recorded in the trace.  A call whose result the program
    reads takes it from the [Engine]; a call on the slider acts on the
    [GtkRange] held in [data]. *)

Definition g_print (text : string) : M unit := emit (E_print text).
Definition printf (text : string) : M unit := emit (E_print text).
Definition g_printerr (text : string) : M unit := emit (E_printerr text).

(** The return value of [gst_element_set_state] is read nowhere in the
    callbacks. *)
Definition gst_element_set_state (element : GstElement) (target : GstState) : M unit :=
  emit (E_set_state element target).

Definition gst_element_seek_simple (element : GstElement) (format flags : Z)
    (pos : gint64) : M bool :=
  emit (E_seek_simple element format flags pos) ;;
  e <- get_engine ;;
  ret (eng_seek_ok e).

Definition gst_element_seek (element : GstElement) (rate : gdouble) (format flags : Z)
    (start_type : Z) (start : gint64) (stop_type : Z) (stop : gint64) : M bool :=
  emit (E_seek element rate format flags start_type start stop_type stop) ;;
  e <- get_engine ;;
  ret (eng_seek_ok e).

(** [gst_element_query_duration (data->playbin, format, &data->duration)]:
    the answer is stored in [data->duration] on success; on failure the
    field keeps [GST_CLOCK_TIME_NONE], the value it has at the one place the
    query is made. *)
Definition gst_element_query_duration (element : GstElement) (format : Z) : M bool :=
  emit (E_query_duration element) ;;
  e <- get_engine ;;
  match eng_duration e with
  | Some t => d <- get_data ;; put_data (with_duration t d) ;; ret true
  | None => ret false
  end.

(** [gst_element_query_position (element, format, &current)]: the result and
    the value of [current] after the call. *)
Definition gst_element_query_position (element : GstElement) (format : Z)
    (current : gint64) : M (bool * gint64) :=
  emit (E_query_position element) ;;
  e <- get_engine ;;
  match eng_position e with
  | Some t => ret (true, t)
  | None => ret (false, current)
  end.

Definition gtk_range_get_value : M gdouble :=
  d <- get_data ;;
  ret (range_value (slider d)).

(** glib counts the blocks of a handler; a handler runs while its count is
    zero.  Unblocking a handler that is not blocked only warns. *)
Definition g_signal_handler_block (handler_id : gulong) : M unit :=
  emit (E_signal_handler_block handler_id) ;;
  d <- get_data ;;
  let r := slider d in
  match value_changed_handler r with
  | Some h =>
      when (h =? handler_id)
        (put_data (with_slider
           (mkGtkRange (range_lower r) (range_upper r) (range_value r)
                       (value_changed_handler r) (S (handler_block_count r))) d))
  | None => ret tt
  end.

Definition g_signal_handler_unblock (handler_id : gulong) : M unit :=
  emit (E_signal_handler_unblock handler_id) ;;
  d <- get_data ;;
  let r := slider d in
  match value_changed_handler r with
  | Some h =>
      when (h =? handler_id)
        (put_data (with_slider
           (mkGtkRange (range_lower r) (range_upper r) (range_value r)
                       (value_changed_handler r) (Nat.pred (handler_block_count r))) d))
  | None => ret tt
  end.

(** ** The callbacks of the player *)

(* This function is called when the PLAY button is clicked *)
Definition play_cb : M unit :=
  d <- get_data ;;
  gst_element_set_state (playbin d) GST_STATE_PLAYING.

(* This function is called when the PAUSE button is clicked *)
Definition pause_cb : M unit :=
  d <- get_data ;;
  gst_element_set_state (playbin d) GST_STATE_PAUSED.

(* This function is called when the STOP button is clicked *)
Definition stop_cb : M unit :=
  d <- get_data ;;
  gst_element_set_state (playbin d) GST_STATE_READY.

(* This function is called when the slider changes its position. *)
Definition slider_cb : M unit :=
  value <- gtk_range_get_value ;;
  d <- get_data ;;
  _ <- gst_element_seek_simple (playbin d) GST_FORMAT_TIME
         (Z.lor GST_SEEK_FLAG_FLUSH GST_SEEK_FLAG_KEY_UNIT)
         (gint64_of_gdouble (PrimFloat.mul value (gdouble_of_gint64 GST_SECOND))) ;;
  ret tt.

(** The slider emits "value-changed" when the value of its adjustment
    changes; the handler connected in [create_ui] runs unless blocked. *)
Definition value_changed : M unit :=
  d <- get_data ;;
  match value_changed_handler (slider d) with
  | Some _ => when (Nat.eqb (handler_block_count (slider d)) 0) slider_cb
  | None => ret tt
  end.

(** GTK keeps the value of an adjustment inside its range (the page size of
    a scale is zero). *)
Definition adjustment_clamp (lo hi v : gdouble) : gdouble := MAX (MIN v hi) lo.

(** Setting the value of the adjustment, by the program or by the user
    dragging the slider: the value is clamped, and "value-changed" is emitted
    when it differs from the one held. *)
Definition adjustment_set_value (v : gdouble) : M unit :=
  d <- get_data ;;
  let r := slider d in
  let v' := adjustment_clamp (range_lower r) (range_upper r) v in
  if PrimFloat.eqb v' (range_value r) then ret tt
  else
    put_data (with_slider
      (mkGtkRange (range_lower r) (range_upper r) v'
                  (value_changed_handler r) (handler_block_count r)) d) ;;
    value_changed.

Definition gtk_range_set_value (v : gdouble) : M unit :=
  emit (E_range_set_value v) ;;
  adjustment_set_value v.

(** [gtk_range_set_range] refuses a range whose minimum exceeds its
    maximum, and otherwise clamps the value into the new range. *)
Definition gtk_range_set_range (lo hi : gdouble) : M unit :=
  emit (E_range_set_range lo hi) ;;
  if PrimFloat.leb lo hi then
    d <- get_data ;;
    let r := slider d in
    let v' := adjustment_clamp lo hi (range_value r) in
    put_data (with_slider
      (mkGtkRange lo hi v' (value_changed_handler r) (handler_block_count r)) d) ;;
    when (negb (PrimFloat.eqb v' (range_value r))) value_changed
  else ret tt.

(* This function is called periodically to refresh the GUI *)
Definition refresh_ui : M bool :=
  let current := -1 in
  d <- get_data ;;
  (* We do not want to update anything unless we are in the PAUSED or PLAYING states *)
  if GstState_ltb (state d) GST_STATE_PAUSED then ret true
  else
    (* If we didn't know it yet, query the stream duration *)
    when (negb (GST_CLOCK_TIME_IS_VALID (duration d)))
      (ok <- gst_element_query_duration (playbin d) GST_FORMAT_TIME ;;
       if negb ok then g_printerr ("Could not query current duration." +:+ nl)
       else
         (* Set the range of the slider to the clip duration, in SECONDS *)
         d <- get_data ;;
         gtk_range_set_range 0%float
           (PrimFloat.div (gdouble_of_gint64 (duration d)) (gdouble_of_gint64 GST_SECOND))) ;;
    d <- get_data ;;
    q <- gst_element_query_position (playbin d) GST_FORMAT_TIME current ;;
    let current := snd q in
    when (fst q)
      (d <- get_data ;;
       g_signal_handler_block (slider_update_signal_id d) ;;
       gtk_range_set_value
         (PrimFloat.div (gdouble_of_gint64 current) (gdouble_of_gint64 GST_SECOND)) ;;
       d <- get_data ;;
       g_signal_handler_unblock (slider_update_signal_id d)) ;;
    ret true.

(** The bus callbacks receive the message by its parsed fields. *)

(* This function is called when an error message is posted on the bus *)
Definition error_cb (src : GstElement) (err_message : string)
    (debug_info : option string) : M unit :=
  (* Print error details on the screen *)
  g_printerr ("Error received from element " +:+ src +:+ ": " +:+ err_message +:+ nl) ;;
  g_printerr ("Debugging information: "
              +:+ match debug_info with Some s => s | None => "none" end +:+ nl) ;;
  (* Set the pipeline to READY (which stops playback) *)
  d <- get_data ;;
  gst_element_set_state (playbin d) GST_STATE_READY.

(* This function is called when an End-Of-Stream message is posted on the bus.
   We just set the pipeline to READY (which stops playback) *)
Definition eos_cb : M unit :=
  g_print ("End-Of-Stream reached." +:+ nl) ;;
  d <- get_data ;;
  gst_element_set_state (playbin d) GST_STATE_READY.

(* This function is called when the pipeline changes states. We use it to
   keep track of the current state. *)
Definition state_changed_cb (src : GstElement)
    (old_state new_state pending_state : GstState) : M unit :=
  d <- get_data ;;
  when (String.eqb src (playbin d))
    (put_data (with_state new_state d) ;;
     g_print ("State set to " +:+ gst_element_state_get_name new_state +:+ nl) ;;
     when (GstState_eqb old_state GST_STATE_READY && GstState_eqb new_state GST_STATE_PAUSED)
       (* For extra responsiveness, we refresh the GUI as soon as we reach the PAUSED state *)
       (_ <- refresh_ui ;; ret tt) ;;
     (* dump graph for (some) pipeline state changes *)
     let state_transition_name :=
       gst_element_state_get_name old_state +:+ "_" +:+ gst_element_state_get_name new_state in
     let dump_name := "cctv" +:+ state_transition_name in
     d <- get_data ;;
     emit (E_dump_dot (playbin d) dump_name)).

(* This function is called when an "application" message is posted on the bus. *)
Definition application_cb (structure_name : string) : M unit :=
  if String.eqb structure_name "tags-changed" then ret tt else ret tt.

(** [create_ui], as far as the slider goes: a scale over 0..100 in steps of
    1 starting at its minimum, with [slider_cb] connected to "value-changed"
    under the handler id glib returns, and an empty text view. *)
Definition create_ui (handler_id : gulong) : M unit :=
  d <- get_data ;;
  put_data (mkCustomData (playbin d)
              (mkGtkRange 0%float 100%float 0%float (Some handler_id) 0)
              EmptyString handler_id (state d) (duration d)).

(** The bus of [_main] emits a signal for each message; four are connected. *)
Definition _main_bus_message (msg : GstMessage) : M unit :=
  match msg with
  | MsgError src err_message debug_info => error_cb src err_message debug_info
  | MsgEos _ => eos_cb
  | MsgStateChanged src old_state new_state pending_state =>
      state_changed_cb src old_state new_state pending_state
  | MsgApplication _ structure_name => application_cb structure_name
  | MsgOther _ => ret tt
  end.

(** [_main] up to the main loop: [data] is zeroed, its duration set to
    [GST_CLOCK_TIME_NONE], the pipeline parsed, the GUI created and the
    pipeline asked to play. *)
Definition _main (pipeline : GstElement) (handler_id : gulong) : M unit :=
  put_data (mkCustomData pipeline (mkGtkRange 0%float 0%float 0%float None 0)
              EmptyString 0 GST_STATE_VOID_PENDING GST_CLOCK_TIME_NONE) ;;
  create_ui handler_id ;;
  d <- get_data ;;
  gst_element_set_state (playbin d) GST_STATE_PLAYING.

(** The timer registered by [g_timeout_add_seconds (1, refresh_ui, &data)]:
    one call of [refresh_ui] per tick, the engine answering each tick as
    given. *)
Fixpoint timeout_ticks (answers : list Engine) : M unit :=
  match answers with
  | [] => ret tt
  | e :: rest =>
      (fun w => (tt, set_engine e w)) ;;
      _ <- refresh_ui ;;
      timeout_ticks rest
  end.

(** ** The CCTV viewer *)

Definition get_world : M World := fun w => (w, w).
Definition set_faceblur_onoff (v : Z) : M unit :=
  fun w => (tt, mkWorld (data w) v (_g_is_facearea_onoff w) (_g_is_numberplateblur_onoff w)
                        (properties w) (labels w) (engine w) (trace w)).
Definition set_facearea_onoff (v : Z) : M unit :=
  fun w => (tt, mkWorld (data w) (_g_is_faceblur_onoff w) v (_g_is_numberplateblur_onoff w)
                        (properties w) (labels w) (engine w) (trace w)).
Definition set_numberplateblur_onoff (v : Z) : M unit :=
  fun w => (tt, mkWorld (data w) (_g_is_faceblur_onoff w) (_g_is_facearea_onoff w) v
                        (properties w) (labels w) (engine w) (trace w)).
Definition put_properties (p : gmap (GstElement * string) Z) : M unit :=
  fun w => (tt, mkWorld (data w) (_g_is_faceblur_onoff w) (_g_is_facearea_onoff w)
                        (_g_is_numberplateblur_onoff w) p (labels w) (engine w) (trace w)).
Definition put_labels (l : gmap GtkWidget string) : M unit :=
  fun w => (tt, mkWorld (data w) (_g_is_faceblur_onoff w) (_g_is_facearea_onoff w)
                        (_g_is_numberplateblur_onoff w) (properties w) l (engine w) (trace w)).

(** [g_object_set (object, property, v, NULL)] on an integer property; on
    [NULL] glib only warns. *)
Definition g_object_set (object : option GstElement) (property : string) (v : Z) : M unit :=
  emit (E_object_set object property v) ;;
  match object with
  | Some element =>
      w <- get_world ;;
      put_properties (<[(element, property) := v]> (properties w))
  | None => ret tt
  end.

Definition gtk_button_new_with_label (button : GtkWidget) (label : string) : M unit :=
  w <- get_world ;;
  put_labels (<[button := label]> (labels w)).

Definition gtk_button_set_label (button : GtkWidget) (label : string) : M unit :=
  emit (E_button_set_label button label) ;;
  w <- get_world ;;
  put_labels (<[button := label]> (labels w)).

Definition button_faceblur_onoff_func (widget : GtkWidget) (data : option GstElement) : M unit :=
  printf ("button_faceblur_onoff_func" +:+ crnl) ;;
  let faceblur := data in
  w <- get_world ;;
  if _g_is_faceblur_onoff w =? 0 then
    set_faceblur_onoff 1 ;;
    gtk_button_set_label widget "face SHOW"
  else
    set_faceblur_onoff 0 ;;
    gtk_button_set_label widget "face HIDE".

Definition button_facearea_onoff_func (widget : GtkWidget) (data : option GstElement) : M unit :=
  printf ("button_facearea_onoff_func" +:+ crnl) ;;
  let facedetect := data in
  w <- get_world ;;
  if _g_is_facearea_onoff w =? 0 then
    g_object_set facedetect "display" 1 ;;
    set_facearea_onoff 1 ;;
    gtk_button_set_label widget "faceArea HIDE"
  else
    g_object_set facedetect "display" 0 ;;
    set_facearea_onoff 0 ;;
    gtk_button_set_label widget "faceArea SHOW".

Definition button_numberplateblur_onoff_func (widget : GtkWidget) (data : option GstElement)
    : M unit :=
  printf ("button_numberplateblur_onoff_func" +:+ crnl) ;;
  let numberplateblur := data in
  w <- get_world ;;
  if _g_is_numberplateblur_onoff w =? 0 then
    set_numberplateblur_onoff 1 ;;
    gtk_button_set_label widget "numberPlate SHOW"
  else
    set_numberplateblur_onoff 0 ;;
    gtk_button_set_label widget "numberPlate HIDE".

Definition _eos_cb (data : GstElement) : M unit :=
  g_print ("End-Of-Stream reached." +:+ nl) ;;
  let pipeline := data in
  g_print ("End-Of-Stream reached." +:+ nl) ;;
  gst_element_set_state pipeline GST_STATE_READY ;;
  (* restart playback if at end *)
  ok <- gst_element_seek pipeline 1%float GST_FORMAT_TIME GST_SEEK_FLAG_FLUSH
          GST_SEEK_TYPE_SET 0 GST_SEEK_TYPE_NONE GST_CLOCK_TIME_NONE ;;
  when (negb ok) (g_print ("Seek failed!" +:+ nl)) ;;
  gst_element_set_state pipeline GST_STATE_PLAYING.

(** The elements and buttons of [main], by the names of its variables. *)
Definition pipeline : GstElement := "pipeline".
Definition faceblur : GstElement := "faceblur".
Definition facedetect : GstElement := "facedetect".
Definition button_faceblur_onoff : GtkWidget := "button_faceblur_onoff".
Definition button_facearea_onoff : GtkWidget := "button_facearea_onoff".
Definition button_numberplateblur_onoff : GtkWidget := "button_numberplateblur_onoff".

(** The clicks [main] connects: each button to its handler and user data. *)
Inductive Button : Set := FaceBlur | FaceArea | NumberPlateBlur.

#[global] Instance Button_eq_dec : EqDecision Button.
Proof. solve_decision. Defined.

Definition clicked (b : Button) : M unit :=
  match b with
  | FaceBlur => button_faceblur_onoff_func button_faceblur_onoff (Some faceblur)
  | FaceArea => button_facearea_onoff_func button_facearea_onoff (Some facedetect)
  | NumberPlateBlur => button_numberplateblur_onoff_func button_numberplateblur_onoff None
  end.

(** The bus of [main]: only "message::eos" is connected, to [eos_cb], with
    the address of [pipeline] as its data, so that [data->playbin] reads
    [pipeline]. *)
Definition main_bus_message (msg : GstMessage) : M unit :=
  match msg with
  | MsgEos _ => eos_cb
  | _ => ret tt
  end.

(** [main] up to the main loop: the three buttons get their first labels,
    the overlay of [facedetect] is switched off and the pipeline is asked
    to play.  [main] has no [CustomData]; what [eos_cb] reads as
    [data->playbin] is the variable [pipeline], which the first step
    records. *)
Definition main : M unit :=
  d <- get_data ;;
  put_data (mkCustomData pipeline (slider d) (streams_list d)
              (slider_update_signal_id d) (state d) (duration d)) ;;
  gtk_button_new_with_label button_faceblur_onoff "face HIDE" ;;
  gtk_button_new_with_label button_facearea_onoff "faceArea SHOW" ;;
  g_object_set (Some facedetect) "display" 0 ;;
  gtk_button_new_with_label button_numberplateblur_onoff "numberPlate HIDE" ;;
  gst_element_set_state pipeline GST_STATE_PLAYING.

(** The process image before either entry point runs: statics at their
    initialisers, nothing set, nothing printed. *)
Definition start (e : Engine) : World :=
  mkWorld (mkCustomData EmptyString (mkGtkRange 0%float 0%float 0%float None 0)
             EmptyString 0 GST_STATE_VOID_PENDING 0)
          0 0 0 ∅ ∅ e [].

(** ** Vocabulary of the properties *)

(** [(gdouble) t / GST_SECOND], as [refresh_ui] computes it twice. *)
Definition to_seconds (t : gint64) : gdouble :=
  PrimFloat.div (gdouble_of_gint64 t) (gdouble_of_gint64 GST_SECOND).

(** The two halves of [refresh_ui] past its guard: the lazy query of the
    duration and the query and push of the position ([refresh_ui_halves]
    below shows that [refresh_ui] is the one followed by the other). *)
Definition refresh_duration : M unit :=
  d <- get_data ;;
  when (negb (GST_CLOCK_TIME_IS_VALID (duration d)))
    (ok <- gst_element_query_duration (playbin d) GST_FORMAT_TIME ;;
     if negb ok then g_printerr ("Could not query current duration." +:+ nl)
     else
       d <- get_data ;;
       gtk_range_set_range 0%float (to_seconds (duration d))).

Definition refresh_position : M unit :=
  d <- get_data ;;
  q <- gst_element_query_position (playbin d) GST_FORMAT_TIME (-1) ;;
  when (fst q)
    (d <- get_data ;;
     g_signal_handler_block (slider_update_signal_id d) ;;
     gtk_range_set_value (to_seconds (snd q)) ;;
     d <- get_data ;;
     g_signal_handler_unblock (slider_update_signal_id d)).

(** The handler on the slider is the one whose id [data] holds, as
    [create_ui] leaves it. *)
Definition slider_connected (d : CustomData) : Prop :=
  value_changed_handler (slider d) = Some (slider_update_signal_id d).

(** The three calls by which [refresh_ui] pushes a position. *)
Definition position_push (d : CustomData) (p : gint64) : list Effect :=
  [E_signal_handler_block (slider_update_signal_id d);
   E_range_set_value (to_seconds p);
   E_signal_handler_unblock (slider_update_signal_id d)].

(** The seek [slider_cb] issues when the slider holds [v]. *)
Definition slider_seek (d : CustomData) (v : gdouble) : Effect :=
  E_seek_simple (playbin d) GST_FORMAT_TIME
    (Z.lor GST_SEEK_FLAG_FLUSH GST_SEEK_FLAG_KEY_UNIT)
    (gint64_of_gdouble (PrimFloat.mul v (gdouble_of_gint64 GST_SECOND))).

(** The user dragging the slider to [t] seconds. *)
Definition user_moves_slider (t : gdouble) : M unit := adjustment_set_value t.

(** The seek of [_eos_cb]. *)
Definition eos_seek (p : GstElement) : Effect :=
  E_seek p 1%float GST_FORMAT_TIME GST_SEEK_FLAG_FLUSH GST_SEEK_TYPE_SET 0
         GST_SEEK_TYPE_NONE GST_CLOCK_TIME_NONE.

(** The name of the graph dump and the test for the early refresh in
    [state_changed_cb]. *)
Definition dump_name (old_state new_state : GstState) : string :=
  "cctv" +:+ (gst_element_state_get_name old_state +:+ "_"
              +:+ gst_element_state_get_name new_state).

Definition refresh_trigger (old_state new_state : GstState) : bool :=
  GstState_eqb old_state GST_STATE_READY && GstState_eqb new_state GST_STATE_PAUSED.

(** The flag, the button and the labels of each toggle. *)
Definition flag (b : Button) (w : World) : Z :=
  match b with
  | FaceBlur => _g_is_faceblur_onoff w
  | FaceArea => _g_is_facearea_onoff w
  | NumberPlateBlur => _g_is_numberplateblur_onoff w
  end.

Definition button_of (b : Button) : GtkWidget :=
  match b with
  | FaceBlur => button_faceblur_onoff
  | FaceArea => button_facearea_onoff
  | NumberPlateBlur => button_numberplateblur_onoff
  end.

(** The label each handler gives its button on making the flag [f]. *)
Definition label_for (b : Button) (f : Z) : string :=
  match b with
  | FaceBlur => if f =? 0 then "face HIDE" else "face SHOW"
  | FaceArea => if f =? 0 then "faceArea SHOW" else "faceArea HIDE"
  | NumberPlateBlur => if f =? 0 then "numberPlate HIDE" else "numberPlate SHOW"
  end.

(** The states of the viewer: [main] has run, then buttons are clicked and
    bus messages arrive in any order. *)
Inductive reachable : World -> Prop :=
| reachable_main (e : Engine) : reachable (run main (start e))
| reachable_clicked (b : Button) (w : World) :
    reachable w -> reachable (run (clicked b) w)
| reachable_message (msg : GstMessage) (w : World) :
    reachable w -> reachable (run (main_bus_message msg) w).

(** In every such state each flag is 0 or 1, each button shows the label of
    its flag, and the overlay property of [facedetect] is the face-area
    flag. *)
Definition toggles_consistent (w : World) : Prop :=
  (forall b, (flag b w = 0 \/ flag b w = 1) /\
             labels w !! button_of b = Some (label_for b (flag b w))) /\
  properties w !! (facedetect, "display") = Some (_g_is_facearea_onoff w).

(** ** Runs used as examples *)

Definition silent : Engine := mkEngine None None true.
Definition seek_fails : Engine := mkEngine None None false.
Definition clip_5s : Engine := mkEngine (Some 5000000000) (Some 1500000000) true.
Definition clip_9s : Engine := mkEngine (Some 9000000000) (Some 0) true.

(** The state changes the pipeline "pipeline0" of the player reports. *)
Definition null_to_ready : GstMessage :=
  MsgStateChanged "pipeline0" GST_STATE_NULL GST_STATE_READY GST_STATE_PLAYING.
Definition ready_to_paused : GstMessage :=
  MsgStateChanged "pipeline0" GST_STATE_READY GST_STATE_PAUSED GST_STATE_PLAYING.
Definition paused_to_playing : GstMessage :=
  MsgStateChanged "pipeline0" GST_STATE_PAUSED GST_STATE_PLAYING GST_STATE_VOID_PENDING.
Definition playing_to_paused : GstMessage :=
  MsgStateChanged "pipeline0" GST_STATE_PLAYING GST_STATE_PAUSED GST_STATE_READY.
Definition paused_to_ready : GstMessage :=
  MsgStateChanged "pipeline0" GST_STATE_PAUSED GST_STATE_READY GST_STATE_VOID_PENDING.
(** The same change reported by the source inside the pipeline. *)
Definition child_ready_to_paused : GstMessage :=
  MsgStateChanged "rtspsrc0" GST_STATE_READY GST_STATE_PAUSED GST_STATE_VOID_PENDING.

(** The player right after [_main], with the engine answering as [e]. *)
Definition player (e : Engine) : World := run (_main "pipeline0" 1) (start e).

(** The player in READY, with an engine that would answer every query. *)
Definition ready_world : World := run (_main_bus_message null_to_ready) (player clip_5s).

(** The player in PAUSED with no duration learnt, the engine silent so far. *)
Definition paused_unknown : World :=
  run (_main_bus_message null_to_ready ;; _main_bus_message ready_to_paused) (player silent).

(** The same, the engine now ready to answer. *)
Definition paused_without_duration : World := set_engine clip_5s paused_unknown.

(** The player in PLAYING, the duration of 5 seconds cached. *)
Definition playing_5s : World :=
  run (_main_bus_message null_to_ready ;;
       _main_bus_message ready_to_paused ;;
       _main_bus_message paused_to_playing)
      (player clip_5s).

(** Stop, then play again while the engine has come to answer 9 seconds,
    with the state changes the pipeline reports in between, and a poll. *)
Definition stop_then_play : M unit :=
  stop_cb ;;
  _main_bus_message playing_to_paused ;;
  _main_bus_message paused_to_ready ;;
  (fun w => (tt, set_engine clip_9s w)) ;;
  play_cb ;;
  _main_bus_message ready_to_paused ;;
  _main_bus_message paused_to_playing ;;
  _ <- refresh_ui ;;
  ret tt.

(** A world in which 5 seconds are cached as the duration while the slider
    still has the range of [create_ui] and holds 7. *)
Definition slider_beyond_duration : World :=
  set_data (mkCustomData "pipeline0" (mkGtkRange 0%float 100%float 7%float (Some 1) 0)
              EmptyString 1 GST_STATE_PLAYING 5000000000)
           (player silent).

(** Three polls whose duration queries fail, the second without a position. *)
Definition three_failures : list Engine :=
  [mkEngine None (Some 1000000000) true;
   mkEngine None None true;
   mkEngine None (Some 3000000000) true].

(** The viewer right after [main]. *)
Definition viewer : World := run main (start silent).
Definition viewer_at_eos : World := run main (start seek_fails).

(** ** The windows and the main loop

    What the remaining callbacks act on lies outside [World]: the loop of
    [gtk_main], the timer, the video window, the messages the program itself
    posts on the bus, and the contents and links of the viewer's pipeline. *)

Inductive CairoOp : Type :=
| Cairo_set_source_rgb (r g b : gdouble)
| Cairo_rectangle (x y width height : gdouble)
| Cairo_fill.

Record GtkAllocation : Type := mkGtkAllocation {
  alloc_x : Z;
  alloc_y : Z;
  alloc_width : Z;
  alloc_height : Z
}.

(** A pad, by its element and its name. *)
Definition GstPad : Type := GstElement * string.

Record Gui : Type := mkGui {
  world : World;
  quit_requested : bool;
  timeout_active : bool;
  window_shown : bool;
  video_window : list CairoOp;
  bus : list GstMessage;
  location : option string;
  children : list GstElement;
  links : list (GstPad * GstPad)
}.

Definition with_world (w : World) (g : Gui) : Gui :=
  mkGui w (quit_requested g) (timeout_active g) (window_shown g) (video_window g)
        (bus g) (location g) (children g) (links g).
Definition with_bus (b : list GstMessage) (g : Gui) : Gui :=
  mkGui (world g) (quit_requested g) (timeout_active g) (window_shown g) (video_window g)
        b (location g) (children g) (links g).
Definition with_links (l : list (GstPad * GstPad)) (g : Gui) : Gui :=
  mkGui (world g) (quit_requested g) (timeout_active g) (window_shown g) (video_window g)
        (bus g) (location g) (children g) l.

(** A callback of the first part run inside the larger state. *)
Definition in_world {A : Type} (m : M A) (g : Gui) : Gui := with_world (run m (world g)) g.

Definition gtk_main_quit (g : Gui) : Gui :=
  mkGui (world g) true (timeout_active g) (window_shown g) (video_window g)
        (bus g) (location g) (children g) (links g).

Definition gtk_widget_hide (g : Gui) : Gui :=
  mkGui (world g) (quit_requested g) (timeout_active g) false (video_window g)
        (bus g) (location g) (children g) (links g).

Definition cairo (ops : list CairoOp) (g : Gui) : Gui :=
  mkGui (world g) (quit_requested g) (timeout_active g) (window_shown g)
        (video_window g ++ ops) (bus g) (location g) (children g) (links g).

Definition gst_element_post_message (msg : GstMessage) (g : Gui) : Gui :=
  with_bus (bus g ++ [msg]) g.

(* This function is called when the main window is closed *)
Definition delete_event_cb (g : Gui) : Gui :=
  gtk_main_quit (in_world stop_cb g).

(* This function is called everytime the video window needs to be redrawn.
   GStreamer takes care of this in the PAUSED and PLAYING states, otherwise,
   we simply draw a black rectangle to avoid garbage showing up. *)
Definition draw_cb (allocation : GtkAllocation) (g : Gui) : bool * Gui :=
  if GstState_ltb (state (data (world g))) GST_STATE_PAUSED then
    (false,
     cairo [Cairo_set_source_rgb 0%float 0%float 0%float;
            Cairo_rectangle 0%float 0%float
              (gdouble_of_gint64 (alloc_width allocation))
              (gdouble_of_gint64 (alloc_height allocation));
            Cairo_fill] g)
  else (false, g).

(* This function is called when new metadata is discovered in the stream *)
Definition tags_cb (playbin : GstElement) (stream : Z) (g : Gui) : Gui :=
  gst_element_post_message (MsgApplication playbin "tags-changed") g.

(** The timer of [g_timeout_add_seconds]: glib drops it once the callback
    returns FALSE. *)
Definition timeout (callback : M bool) (g : Gui) : Gui :=
  if timeout_active g then
    let r := callback (world g) in
    mkGui (snd r) (quit_requested g) (fst r) (window_shown g) (video_window g)
          (bus g) (location g) (children g) (links g)
  else g.

(** The signal watch on the bus: the messages waiting are handed, oldest
    first, to the callbacks connected. *)
Definition dispatch_bus (bus_message : GstMessage -> M unit) (g : Gui) : Gui :=
  fold_left (fun g msg => in_world (bus_message msg) g) (bus g) (with_bus [] g).

(** [gtk_main]: events are handled one at a time, each followed by the
    messages then waiting on the bus, until a callback has called
    [gtk_main_quit]. *)
Fixpoint gtk_main {E : Type} (signals : E -> Gui -> Gui)
    (bus_message : GstMessage -> M unit) (events : list E) (g : Gui) : Gui :=
  match events with
  | [] => g
  | ev :: rest =>
      let g1 := signals ev g in
      if quit_requested g1 then g1
      else gtk_main signals bus_message rest (dispatch_bus bus_message g1)
  end.

(** What can happen while the player runs: the signals [create_ui] and
    [_main] connect, the timer, a message from the engine, and the engine
    coming to answer differently. *)
Inductive PlayerEvent : Type :=
| PlayClicked
| PauseClicked
| StopClicked
| SliderMoved (t : gdouble)
| DeleteEvent
| Draw (allocation : GtkAllocation)
| Timeout
| TagsChanged (stream : Z)
| BusMessage (msg : GstMessage)
| EngineAnswers (e : Engine).

Definition player_signals (ev : PlayerEvent) (g : Gui) : Gui :=
  match ev with
  | PlayClicked => in_world play_cb g
  | PauseClicked => in_world pause_cb g
  | StopClicked => in_world stop_cb g
  | SliderMoved t => in_world (user_moves_slider t) g
  | DeleteEvent => delete_event_cb g
  | Draw allocation => snd (draw_cb allocation g)
  | Timeout => timeout refresh_ui g
  | TagsChanged stream => tags_cb (playbin (data (world g))) stream g
  | BusMessage msg => gst_element_post_message msg g
  | EngineAnswers e => with_world (set_engine e (world g)) g
  end.

Inductive GstStateChangeReturn : Set :=
| GST_STATE_CHANGE_FAILURE
| GST_STATE_CHANGE_SUCCESS
| GST_STATE_CHANGE_ASYNC
| GST_STATE_CHANGE_NO_PREROLL.

(** How a program ends; [Running] when the events run out before the loop
    is quit. *)
Inductive Exit : Set :=
| Exited (status : Z)
| Running.

(** [_main] in full.  [launched] is what [gst_parse_launch] returns,
    [dot_dir] whether [GST_DEBUG_DUMP_DOT_DIR] reads as set after
    [g_setenv], [ret] what the request for PLAYING returns; [_main] above is
    the path on which the pipeline was parsed. *)
Definition _main_program (launched : option GstElement) (dot_dir : bool)
    (handler_id : gulong) (ret : GstStateChangeReturn)
    (events : list PlayerEvent) (g : Gui) : Exit * Gui :=
  let g :=
    in_world (printf (if dot_dir then "SIGHUP: dumping dot file snapshot ..." +:+ nl
                      else "SIGHUP: not dumping dot file snapshot, GST_DEBUG_DUMP_DOT_DIR "
                           +:+ "environment variable not set." +:+ nl)) g in
  match launched with
  | None =>
      (Exited (-1), in_world (g_printerr ("Not all elements could be created." +:+ nl)) g)
  | Some pipeline =>
      let g := in_world (_main pipeline handler_id) g in
      match ret with
      | GST_STATE_CHANGE_FAILURE =>
          (Exited (-1),
           in_world (g_printerr ("Unable to set the pipeline to the playing state." +:+ nl)) g)
      | _ =>
          (* Register a function that GLib will call every second *)
          let g := mkGui (world g) (quit_requested g) true (window_shown g) (video_window g)
                         (bus g) (location g) (children g) (links g) in
          let g := gtk_main player_signals _main_bus_message events g in
          if quit_requested g then
            (* Free resources *)
            (Exited 0,
             in_world (d <- get_data ;; gst_element_set_state (playbin d) GST_STATE_NULL) g)
          else (Running, g)
      end
  end.

(** ** The pipeline of the viewer *)

Definition window_closed (user_data : GstElement) (g : Gui) : Gui :=
  let pipeline := user_data in
  gtk_main_quit (in_world (gst_element_set_state pipeline GST_STATE_NULL) (gtk_widget_hide g)).

Definition pad_linked (p : GstPad) (l : list (GstPad * GstPad)) : bool :=
  existsb (fun l => bool_decide (fst l = p) || bool_decide (snd l = p)) l.

(** [gst_pad_link]: refused when either pad is linked already or the engine
    finds the pads incompatible. *)
Definition gst_pad_link (srcpad sinkpad : GstPad) (compatible : bool) (g : Gui) : bool * Gui :=
  if pad_linked srcpad (links g) || pad_linked sinkpad (links g) then (false, g)
  else if compatible then (true, with_links (links g ++ [(srcpad, sinkpad)]) g)
  else (false, g).

Definition gst_element_get_static_pad (element : GstElement) (name : string) : GstPad :=
  (element, name).

(* status play -> link rtspsrc *)
Definition on_pad_added (element : GstElement) (pad : GstPad) (data : GstElement)
    (compatible : bool) (g : Gui) : Gui :=
  let demux := data in
  let sinkpad := gst_element_get_static_pad demux "sink" in
  snd (gst_pad_link pad sinkpad compatible g).

(** [gst_element_factory_make]: [NULL] when no plugin provides the factory.
    Elements are named after the variables that hold them. *)
Definition gst_element_factory_make (registry : gset string) (factoryname : string)
    (name : GstElement) : option GstElement :=
  if bool_decide (factoryname ∈ registry) then Some name else None.

(** [g_assert (x)] on a pointer: the program aborts on [NULL]. *)
Definition g_assert (x : option GstElement) : option unit :=
  match x with
  | Some _ => Some tt
  | None => None
  end.

(** [gst_bin_add_many] and [gst_element_link_many] take their elements as a
    list that ends at the first [NULL]. *)
Fixpoint gst_bin_add_many (elements : list (option GstElement)) (g : Gui) : Gui :=
  match elements with
  | Some element :: rest =>
      gst_bin_add_many rest
        (mkGui (world g) (quit_requested g) (timeout_active g) (window_shown g)
               (video_window g) (bus g) (location g) (children g ++ [element]) (links g))
  | _ => g
  end.

Definition gst_element_link (link_ok : GstElement -> GstElement -> bool)
    (src dest : GstElement) (g : Gui) : bool * Gui :=
  gst_pad_link (src, "src") (dest, "sink") (link_ok src dest) g.

Fixpoint gst_element_link_many_from (link_ok : GstElement -> GstElement -> bool)
    (element_1 : GstElement) (rest : list (option GstElement)) (g : Gui) : bool * Gui :=
  match rest with
  | Some element_2 :: rest' =>
      let r := gst_element_link link_ok element_1 element_2 g in
      if fst r then gst_element_link_many_from link_ok element_2 rest' (snd r)
      else (false, snd r)
  | _ => (true, g)
  end.

Definition gst_element_link_many (link_ok : GstElement -> GstElement -> bool)
    (elements : list (option GstElement)) (g : Gui) : bool * Gui :=
  match elements with
  | Some element_1 :: Some element_2 :: rest =>
      gst_element_link_many_from link_ok element_1 (Some element_2 :: rest) g
  | _ => (false, g)
  end.

(** The first part of [main]: the elements are made, put into the pipeline
    and linked from the depayloader to the sink.  [None] is the abort of a
    failed assertion. *)
Definition main_pipeline (registry : gset string)
    (link_ok : GstElement -> GstElement -> bool) (g : Gui) : option Gui :=
  let make := gst_element_factory_make registry in
  let source := make "rtspsrc" "source" in
  _ ← g_assert source;
  (* Set CAPS *)
  let g := mkGui (world g) (quit_requested g) (timeout_active g) (window_shown g)
                 (video_window g) (bus g)
                 (match source with
                  | Some _ => Some "rtsp://10.178.134.100:8554/test"
                  | None => location g
                  end)
                 (children g) (links g) in
  let g := in_world (g_object_set source "latency" 200) g in
  let demux := make "rtph264depay" "demux" in
  _ ← g_assert demux;
  let parse := make "h264parse" "parse" in
  _ ← g_assert parse;
  let filter := make "capsfilter" "filter" in
  _ ← g_assert filter;
  let decodebin := make "avdec_h264" "decodebin" in
  _ ← g_assert decodebin;
  let videoConvert := make "videoconvert" "videoConvert" in
  _ ← g_assert videoConvert;
  let videoConvert2 := make "videoconvert" "videoConvert2" in
  _ ← g_assert videoConvert2;
  let sink := make "ximagesink" "sink" in
  _ ← g_assert sink;
  let faceblur := make "faceblur" faceblur in
  _ ← g_assert sink;
  let facedetect := make "facedetect" facedetect in
  _ ← g_assert sink;
  (* ADD *)
  let g := gst_bin_add_many
             [source; demux; parse; filter; decodebin; videoConvert; facedetect;
              videoConvert2; sink] g in
  (* LINK *)
  let r := gst_element_link_many link_ok
             [demux; parse; filter; decodebin; videoConvert; facedetect;
              videoConvert2; sink] g in
  Some (if fst r then snd r
        else in_world (printf (nl +:+ "Failed to link parse to sink")) (snd r)).

(** What can happen while the viewer runs: a click, the window closed, a
    message from the engine, a pad appearing on the source. *)
Inductive ViewerEvent : Type :=
| Clicked (b : Button)
| WindowDeleted
| ViewerMessage (msg : GstMessage)
| PadAdded (pad : GstPad) (compatible : bool).

Definition viewer_signals (ev : ViewerEvent) (g : Gui) : Gui :=
  match ev with
  | Clicked b => in_world (clicked b) g
  | WindowDeleted => window_closed pipeline g
  | ViewerMessage msg => gst_element_post_message msg g
  | PadAdded pad compatible => on_pad_added "source" pad "demux" compatible g
  end.

(** The end of [main], from the answer to its request for PLAYING. *)
Definition main_exit (sret : GstStateChangeReturn) (events : list ViewerEvent) (g : Gui)
    : Exit * Gui :=
  match sret with
  | GST_STATE_CHANGE_FAILURE =>
      (Exited 0, in_world (gst_element_set_state pipeline GST_STATE_NULL) g)
  | _ =>
      let g := gtk_main viewer_signals main_bus_message events g in
      if quit_requested g then (Exited 0, g) else (Running, g)
  end.

(** Nothing shown, drawn, posted or linked yet. *)
Definition desktop (w : World) : Gui := mkGui w false false true [] [] None [] [].

(** ** Vocabulary of the loops *)

(** The effects a run of the larger state adds to the trace. *)
Definition gui_emitted (g g' : Gui) : list Effect :=
  skipn (length (trace (world g))) (trace (world g')).

(** A seek as [slider_cb] makes it: on [p], in time format, flushing, to a
    key unit; no other effect is a seek. *)
Definition is_slider_seek (p : GstElement) (e : Effect) : bool :=
  match e with
  | E_seek_simple element format flags _ =>
      String.eqb element p && (format =? GST_FORMAT_TIME)
      && (flags =? Z.lor GST_SEEK_FLAG_FLUSH GST_SEEK_FLAG_KEY_UNIT)
  | E_seek _ _ _ _ _ _ _ _ => false
  | _ => true
  end.

(** The slider as the loop finds it between two events: its handler
    connected under the id [data] holds, and not blocked. *)
Definition slider_ready (w : World) : Prop :=
  slider_connected (data w) /\ handler_block_count (slider (data w)) = 0%nat.

(** The loop at its start: nothing waiting on the bus, no quit requested. *)
Definition loop_fresh (g : Gui) : Prop := bus g = [] /\ quit_requested g = false.

(** The state the pipeline [p] last reported among the events the loop gets
    to handle. *)
Fixpoint reported_state (p : GstElement) (events : list PlayerEvent) (s : GstState)
    : GstState :=
  match events with
  | [] => s
  | DeleteEvent :: _ => s
  | BusMessage (MsgStateChanged src _ new_state _) :: rest =>
      reported_state p rest (if String.eqb src p then new_state else s)
  | _ :: rest => reported_state p rest s
  end.

(** The state an event of the player asks of the pipeline, if any. *)
Definition state_request (ev : PlayerEvent) : list GstState :=
  match ev with
  | PlayClicked => [GST_STATE_PLAYING]
  | PauseClicked => [GST_STATE_PAUSED]
  | StopClicked => [GST_STATE_READY]
  | DeleteEvent => [GST_STATE_READY]
  | BusMessage (MsgError _ _ _) => [GST_STATE_READY]
  | BusMessage (MsgEos _) => [GST_STATE_READY]
  | _ => []
  end.

Fixpoint state_requests (events : list PlayerEvent) : list GstState :=
  match events with
  | [] => []
  | DeleteEvent :: _ => [GST_STATE_READY]
  | ev :: rest => state_request ev ++ state_requests rest
  end.

Definition is_delete (ev : PlayerEvent) : bool :=
  match ev with DeleteEvent => true | _ => false end.
Definition is_slider_moved (ev : PlayerEvent) : bool :=
  match ev with SliderMoved _ => true | _ => false end.

(** The same for the viewer. *)
Fixpoint viewer_requests (events : list ViewerEvent) : list GstState :=
  match events with
  | [] => []
  | WindowDeleted :: _ => [GST_STATE_NULL]
  | ViewerMessage (MsgEos _) :: rest => GST_STATE_READY :: viewer_requests rest
  | _ :: rest => viewer_requests rest
  end.

Definition is_window_deleted (ev : ViewerEvent) : bool :=
  match ev with WindowDeleted => true | _ => false end.

(** The factories [main] asserts on. *)
Definition asserted_factories : gset string :=
  {["rtspsrc"; "rtph264depay"; "h264parse"; "capsfilter"; "avdec_h264"; "videoconvert";
    "ximagesink"]}.

(** The sink pad of the depayloader, the one pad [on_pad_added] links to. *)
Definition demux_sink : GstPad := ("demux", "sink").

(** The player, and the viewer, as the loop is entered. *)
Definition player_gui (e : Engine) : Gui :=
  mkGui (player e) false true true [] [] None [] [].
Definition viewer_gui : Gui := desktop viewer.


(** The links [main] asks for, from the depayloader on; the overlay and
    what follows it only when [facedetect] was made. *)
Definition link_chain (with_overlay : bool) : list (GstElement * GstElement) :=
  [("demux", "parse"); ("parse", "filter"); ("filter", "decodebin");
   ("decodebin", "videoConvert")] ++
  (if with_overlay
   then [("videoConvert", facedetect); (facedetect, "videoConvert2"); ("videoConvert2", "sink")]
   else []).

Definition link_of (p : GstElement * GstElement) : GstPad * GstPad :=
  ((fst p, "src"), (snd p, "sink")).

(** What one or more callbacks of the player did to the world: [requests]
    are the states asked of the pipeline, in order, [reported] the state
    stored last if any was, [may_seek] whether the user moved the slider.
    The pipeline, the handler id and the text of the streams are kept, a
    ready slider stays ready, a known duration stays and is not asked for
    again, every seek is one of [slider_cb], and without a move of the
    slider a known duration means no seek at all. *)
Definition steps (requests : list GstState) (reported : option GstState) (may_seek : bool)
    (w w' : World) : Prop :=
  playbin (data w') = playbin (data w) /\
  slider_update_signal_id (data w') = slider_update_signal_id (data w) /\
  streams_list (data w') = streams_list (data w) /\
  (slider_ready w -> slider_ready w') /\
  state (data w') = match reported with Some s => s | None => state (data w) end /\
  (GST_CLOCK_TIME_IS_VALID (duration (data w)) = true ->
   duration (data w') = duration (data w)) /\
  exists l, trace w' = trace w ++ l /\
    filter is_set_state l = map (E_set_state (playbin (data w))) requests /\
    forallb (is_slider_seek (playbin (data w))) l = true /\
    (may_seek = false -> slider_ready w ->
     GST_CLOCK_TIME_IS_VALID (duration (data w)) = true -> filter is_seek l = []) /\
    (GST_CLOCK_TIME_IS_VALID (duration (data w)) = true ->
     filter is_query_duration l = []).

(** The state a bus message makes [state_changed_cb] store, and the state an
    event so reports. *)
Definition message_reports (p : GstElement) (msg : GstMessage) : option GstState :=
  match msg with
  | MsgStateChanged src _ new_state _ => if String.eqb src p then Some new_state else None
  | _ => None
  end.

Definition message_requests (msg : GstMessage) : list GstState :=
  match msg with
  | MsgError _ _ _ | MsgEos _ => [GST_STATE_READY]
  | _ => []
  end.

Definition event_reports (p : GstElement) (ev : PlayerEvent) : option GstState :=
  match ev with
  | BusMessage msg => message_reports p msg
  | _ => None
  end.

Definition state_change_failed (ret : GstStateChangeReturn) : bool :=
  match ret with GST_STATE_CHANGE_FAILURE => true | _ => false end.

(** The black rectangle [draw_cb] paints over an allocation. *)
Definition black_rectangle (allocation : GtkAllocation) : list CairoOp :=
  [Cairo_set_source_rgb 0%float 0%float 0%float;
   Cairo_rectangle 0%float 0%float
     (gdouble_of_gint64 (alloc_width allocation))
     (gdouble_of_gint64 (alloc_height allocation));
   Cairo_fill].

(** * Properties *)

Arguments gdouble_of_gint64 : simpl never.
Arguments gint64_of_gdouble : simpl never.
Arguments adjustment_clamp : simpl never.
Arguments GST_SECOND : simpl never.

Ltac cb_unfold :=
  unfold run, result, bind, ret, when, emit, get_data, put_data, get_engine, get_world,
         g_print, printf, g_printerr, gst_element_set_state,
         gst_element_seek, gst_element_seek_simple in *.

Ltac widget_unfold :=
  unfold refresh_position, refresh_duration, gst_element_query_position,
         gst_element_query_duration, g_signal_handler_block, g_signal_handler_unblock,
         gtk_range_set_value, gtk_range_set_range, adjustment_set_value, value_changed,
         slider_cb, gtk_range_get_value, to_seconds in *.

Ltac toggle_unfold :=
  unfold clicked, button_faceblur_onoff_func, button_facearea_onoff_func,
         button_numberplateblur_onoff_func, g_object_set, gtk_button_set_label,
         gtk_button_new_with_label,
         set_faceblur_onoff, set_facearea_onoff, set_numberplateblur_onoff,
         put_labels, put_properties in *.

(** Name every component of a world, so that the callbacks compute on it. *)
Ltac crush_world w :=
  let pb := fresh "pb" in let lo := fresh "lo" in let hi := fresh "hi" in
  let v := fresh "v" in let h := fresh "h" in let bc := fresh "bc" in
  let sl := fresh "sl" in let id := fresh "id" in let st := fresh "st" in
  let du := fresh "du" in let ed := fresh "ed" in let ep := fresh "ep" in
  let es := fresh "es" in let tr := fresh "tr" in
  destruct w as [[pb [lo hi v h bc] sl id st du] ? ? ? ? ? [ed ep es] tr].

(** Follow every branch a callback can take. *)
Ltac split_ifs :=
  repeat (simpl in *;
    match goal with
    | |- context [if ?c then _ else _] => destruct c eqn:?
    | |- context [match ?c with Some _ => _ | None => _ end] => destruct c eqn:?
    end).

(** Close a goal [exists l, trace' = trace ++ l /\ ...] once the trace is
    computed. *)
Ltac trace_done :=
  simpl; repeat rewrite <- app_assoc; simpl;
  try (eexists; split; [reflexivity | simpl; intuition (try congruence; try reflexivity)]).

(** ** The trace grows at its end *)

Lemma skipn_length_app {A : Type} (l k : list A) : skipn (length l) (l ++ k) = k.
Proof. induction l as [|x l IH]; simpl; auto. Qed.

Lemma emitted_intro {A : Type} (m : M A) (w : World) (l : list Effect) :
  trace (run m w) = trace w ++ l -> emitted m w = l.
Proof. unfold emitted. intros ->. apply skipn_length_app. Qed.

Lemma last_requested_state_app (t : list Effect) (e : Effect) :
  last_requested_state (t ++ [e]) =
    match e with
    | E_set_state _ s => Some s
    | _ => last_requested_state t
    end.
Proof.
  induction t as [|x t IH]; simpl.
  - destruct e; reflexivity.
  - rewrite IH. destruct e; reflexivity.
Qed.

Lemma valid_false_none (t : gint64) :
  GST_CLOCK_TIME_IS_VALID t = false -> t = GST_CLOCK_TIME_NONE.
Proof.
  unfold GST_CLOCK_TIME_IS_VALID. intros H.
  apply negb_false_iff in H. apply Z.eqb_eq in H. exact H.
Qed.

(** ** The two halves of [refresh_ui] *)

Lemma refresh_ui_halves (w : World) :
  refresh_ui w =
    if GstState_ltb (state (data w)) GST_STATE_PAUSED then (true, w)
    else (true, run refresh_position (run refresh_duration w)).
Proof.
  unfold refresh_ui, refresh_position, refresh_duration, to_seconds. cb_unfold. simpl.
  destruct (GstState_ltb (state (data w)) GST_STATE_PAUSED); [reflexivity|].
  destruct (negb (GST_CLOCK_TIME_IS_VALID (duration (data w)))); simpl.
  - destruct (gst_element_query_duration (playbin (data w)) GST_FORMAT_TIME _) as [[] w1]; simpl.
    + destruct (gtk_range_set_range _ _ w1) as [[] w2]; simpl.
      destruct (gst_element_query_position _ _ _ _) as [[[] c] w3]; simpl; [|reflexivity].
      destruct (g_signal_handler_block _ _) as [[] w4]; simpl.
      destruct (gtk_range_set_value _ _) as [[] w5]; simpl.
      destruct (g_signal_handler_unblock _ _) as [[] w6]; reflexivity.
    + destruct (gst_element_query_position _ _ _ _) as [[[] c] w3]; simpl; [|reflexivity].
      destruct (g_signal_handler_block _ _) as [[] w4]; simpl.
      destruct (gtk_range_set_value _ _) as [[] w5]; simpl.
      destruct (g_signal_handler_unblock _ _) as [[] w6]; reflexivity.
  - destruct (gst_element_query_position _ _ _ _) as [[[] c] w3]; simpl; [|reflexivity].
    destruct (g_signal_handler_block _ _) as [[] w4]; simpl.
    destruct (gtk_range_set_value _ _) as [[] w5]; simpl.
    destruct (g_signal_handler_unblock _ _) as [[] w6]; reflexivity.
Qed.

(** What the position half does, whatever the state of the slider. *)
Lemma refresh_position_spec (w : World) :
  let w' := run refresh_position w in
  (exists l, trace w' = trace w ++ l /\
     filter is_query_position l = [E_query_position (playbin (data w))] /\
     filter is_query_duration l = [] /\
     filter is_range_set_value l =
       match eng_position (engine w) with
       | Some p => [E_range_set_value (to_seconds p)]
       | None => []
       end) /\
  playbin (data w') = playbin (data w) /\
  state (data w') = state (data w) /\
  duration (data w') = duration (data w) /\
  slider_update_signal_id (data w') = slider_update_signal_id (data w) /\
  range_lower (slider (data w')) = range_lower (slider (data w)) /\
  range_upper (slider (data w')) = range_upper (slider (data w)) /\
  value_changed_handler (slider (data w')) = value_changed_handler (slider (data w)) /\
  engine w' = engine w /\
  (eng_position (engine w) = None -> data w' = data w).
Proof.
  crush_world w. widget_unfold. cb_unfold.
  split_ifs; (split; [trace_done|]); simpl; intuition congruence.
Qed.

(** What the duration half does. *)
Lemma refresh_duration_spec (w : World) :
  let w' := run refresh_duration w in
  (exists l, trace w' = trace w ++ l /\
     filter is_query_position l = [] /\
     filter is_range_set_value l = [] /\
     filter is_query_duration l =
       if GST_CLOCK_TIME_IS_VALID (duration (data w)) then []
       else [E_query_duration (playbin (data w))]) /\
  playbin (data w') = playbin (data w) /\
  state (data w') = state (data w) /\
  slider_update_signal_id (data w') = slider_update_signal_id (data w) /\
  value_changed_handler (slider (data w')) = value_changed_handler (slider (data w)) /\
  handler_block_count (slider (data w')) = handler_block_count (slider (data w)) /\
  engine w' = engine w /\
  duration (data w') =
    (if GST_CLOCK_TIME_IS_VALID (duration (data w)) then duration (data w)
     else match eng_duration (engine w) with
          | Some t => t
          | None => GST_CLOCK_TIME_NONE
          end) /\
  (GST_CLOCK_TIME_IS_VALID (duration (data w)) = true \/ eng_duration (engine w) = None ->
   data w' = data w).
Proof.
  crush_world w. widget_unfold. cb_unfold.
  simpl. destruct (GST_CLOCK_TIME_IS_VALID du) eqn:Hv; simpl.
  - split; [exists []; rewrite app_nil_r; auto|]. intuition congruence.
  - pose proof (valid_false_none _ Hv) as Hn.
    split_ifs; (split; [trace_done|]); simpl; try solve [intuition congruence].
Qed.

(** With the handler of [create_ui] connected, the push of a position runs
    no callback and leaves the block count as it was. *)
Lemma refresh_position_connected (w : World) :
  slider_connected (data w) ->
  let w' := run refresh_position w in
  trace w' =
    trace w ++ E_query_position (playbin (data w)) ::
      match eng_position (engine w) with
      | Some p => position_push (data w) p
      | None => []
      end /\
  handler_block_count (slider (data w')) = handler_block_count (slider (data w)).
Proof.
  unfold slider_connected, position_push. crush_world w. simpl. intros ->.
  widget_unfold. cb_unfold.
  split_ifs;
    repeat match goal with
           | H : (?x =? ?x) = false |- _ => rewrite Z.eqb_refl in H; discriminate H
           | H : Some _ = Some _ |- _ => injection H as ->
           | H : Some _ = None |- _ => discriminate H
           | H : None = Some _ |- _ => discriminate H
           end;
    try discriminate;
    simpl; repeat rewrite <- app_assoc; simpl; split; reflexivity.
Qed.

(** On learning a duration the range of the slider becomes 0..duration. *)
Lemma refresh_duration_range (w : World) (t : gint64) :
  GST_CLOCK_TIME_IS_VALID (duration (data w)) = false ->
  eng_duration (engine w) = Some t ->
  PrimFloat.leb 0%float (to_seconds t) = true ->
  range_lower (slider (data (run refresh_duration w))) = 0%float /\
  range_upper (slider (data (run refresh_duration w))) = to_seconds t.
Proof.
  crush_world w. simpl. intros Hv -> Hle. widget_unfold. cb_unfold. simpl.
  rewrite Hv. simpl. rewrite Hle. simpl.
  split_ifs; split; reflexivity.
Qed.

(** ** [refresh_ui] as a whole *)

Lemma refresh_ui_guarded (w : World) :
  GstState_ltb (state (data w)) GST_STATE_PAUSED = true -> refresh_ui w = (true, w).
Proof. intros H. rewrite refresh_ui_halves, H. reflexivity. Qed.

Lemma refresh_ui_run (w : World) :
  GstState_ltb (state (data w)) GST_STATE_PAUSED = false ->
  run refresh_ui w = run refresh_position (run refresh_duration w).
Proof. intros H. unfold run at 1. rewrite refresh_ui_halves, H. reflexivity. Qed.

Lemma refresh_ui_result (w : World) : result refresh_ui w = true.
Proof.
  unfold result. rewrite refresh_ui_halves.
  destruct (GstState_ltb _ _); reflexivity.
Qed.

Lemma refresh_ui_state (w : World) : state (data (run refresh_ui w)) = state (data w).
Proof.
  destruct (GstState_ltb (state (data w)) GST_STATE_PAUSED) eqn:Hs.
  - unfold run. rewrite refresh_ui_guarded by exact Hs. reflexivity.
  - rewrite refresh_ui_run by exact Hs.
    destruct (refresh_position_spec (run refresh_duration w)) as (_ & _ & -> & _).
    destruct (refresh_duration_spec w) as (_ & _ & -> & _). reflexivity.
Qed.

Lemma refresh_ui_playbin (w : World) : playbin (data (run refresh_ui w)) = playbin (data w).
Proof.
  destruct (GstState_ltb (state (data w)) GST_STATE_PAUSED) eqn:Hs.
  - unfold run. rewrite refresh_ui_guarded by exact Hs. reflexivity.
  - rewrite refresh_ui_run by exact Hs.
    destruct (refresh_position_spec (run refresh_duration w)) as (_ & -> & _).
    destruct (refresh_duration_spec w) as (_ & -> & _). reflexivity.
Qed.

Lemma refresh_ui_trace (w : World) :
  GstState_ltb (state (data w)) GST_STATE_PAUSED = false ->
  exists l, trace (run refresh_ui w) = trace w ++ l /\
    filter is_query_duration l =
      (if GST_CLOCK_TIME_IS_VALID (duration (data w)) then []
       else [E_query_duration (playbin (data w))]) /\
    filter is_query_position l = [E_query_position (playbin (data w))] /\
    filter is_range_set_value l =
      match eng_position (engine w) with
      | Some p => [E_range_set_value (to_seconds p)]
      | None => []
      end.
Proof.
  intros Hs. rewrite refresh_ui_run by exact Hs.
  destruct (refresh_duration_spec w)
    as ((l1 & Ht1 & Hp1 & Hv1 & Hd1) & Hpb & _ & _ & _ & _ & He & _).
  destruct (refresh_position_spec (run refresh_duration w))
    as ((l2 & Ht2 & Hp2 & Hd2 & Hv2) & _).
  exists (l1 ++ l2). rewrite Ht2, Ht1, <- app_assoc. split; [reflexivity|].
  rewrite !filter_app, Hp1, Hv1, Hd1, Hp2, Hd2, Hv2, Hpb, He, app_nil_r.
  repeat split; reflexivity.
Qed.

Lemma refresh_ui_duration (w : World) :
  GstState_ltb (state (data w)) GST_STATE_PAUSED = false ->
  duration (data (run refresh_ui w)) =
    (if GST_CLOCK_TIME_IS_VALID (duration (data w)) then duration (data w)
     else match eng_duration (engine w) with
          | Some t => t
          | None => GST_CLOCK_TIME_NONE
          end).
Proof.
  intros Hs. rewrite refresh_ui_run by exact Hs.
  destruct (refresh_position_spec (run refresh_duration w)) as (_ & _ & _ & -> & _).
  destruct (refresh_duration_spec w) as (_ & _ & _ & _ & _ & _ & _ & -> & _). reflexivity.
Qed.

Lemma refresh_ui_nothing_answered (w : World) :
  GstState_ltb (state (data w)) GST_STATE_PAUSED = false ->
  GST_CLOCK_TIME_IS_VALID (duration (data w)) = true \/ eng_duration (engine w) = None ->
  eng_position (engine w) = None ->
  data (run refresh_ui w) = data w.
Proof.
  intros Hs Hd Hp. rewrite refresh_ui_run by exact Hs.
  destruct (refresh_duration_spec w) as (_ & _ & _ & _ & _ & _ & He & _ & Hsame).
  destruct (refresh_position_spec (run refresh_duration w))
    as (_ & _ & _ & _ & _ & _ & _ & _ & _ & Hsame').
  rewrite Hsame' by (rewrite He; exact Hp). apply Hsame, Hd.
Qed.

(** A known duration is neither queried nor changed by a poll. *)
Lemma refresh_ui_known_duration (w : World) :
  GST_CLOCK_TIME_IS_VALID (duration (data w)) = true ->
  filter is_query_duration (emitted refresh_ui w) = [] /\
  duration (data (run refresh_ui w)) = duration (data w).
Proof.
  intros Hv. destruct (GstState_ltb (state (data w)) GST_STATE_PAUSED) eqn:Hs.
  - unfold emitted, run. rewrite refresh_ui_guarded by exact Hs. simpl.
    rewrite <- (app_nil_r (trace w)) at 2. rewrite skipn_length_app. split; reflexivity.
  - destruct (refresh_ui_trace w Hs) as (l & Hl & Hd & _).
    rewrite (emitted_intro _ _ _ Hl), Hd, Hv, refresh_ui_duration, Hv by exact Hs.
    split; reflexivity.
Qed.

(** ** State changes *)

Lemma state_changed_cb_other (w : World) (src : GstElement)
    (old_state new_state pending_state : GstState) :
  src <> playbin (data w) ->
  run (state_changed_cb src old_state new_state pending_state) w = w.
Proof.
  intros Hne. apply String.eqb_neq in Hne.
  unfold state_changed_cb. cb_unfold. simpl. rewrite Hne. reflexivity.
Qed.

(** [state_changed_cb] on a message of the pipeline, step by step. *)
Lemma state_changed_cb_pipeline (w : World) (old_state new_state pending_state : GstState) :
  let w0 := run (g_print ("State set to " +:+ gst_element_state_get_name new_state +:+ nl))
                (set_data (with_state new_state (data w)) w) in
  let w1 := if refresh_trigger old_state new_state then run refresh_ui w0 else w0 in
  run (state_changed_cb (playbin (data w)) old_state new_state pending_state) w =
    run (emit (E_dump_dot (playbin (data w1)) (dump_name old_state new_state))) w1.
Proof.
  unfold state_changed_cb, refresh_trigger. cb_unfold. simpl. rewrite String.eqb_refl.
  destruct (GstState_eqb old_state GST_STATE_READY && GstState_eqb new_state GST_STATE_PAUSED);
    simpl; [|reflexivity].
  destruct (refresh_ui _) as [b w1]. reflexivity.
Qed.

Lemma refresh_trigger_spec (old_state new_state : GstState) :
  refresh_trigger old_state new_state = true <->
  old_state = GST_STATE_READY /\ new_state = GST_STATE_PAUSED.
Proof.
  destruct old_state, new_state; split; intros H; try discriminate H;
    try (destruct H; discriminate); auto.
Qed.

Lemma bus_message_known_duration (msg : GstMessage) (w : World) :
  GST_CLOCK_TIME_IS_VALID (duration (data w)) = true ->
  duration (data (run (_main_bus_message msg) w)) = duration (data w).
Proof.
  intros Hv. destruct msg as [src e d|src|src o n p|src nm|src]; try reflexivity.
  - unfold _main_bus_message.
    destruct (String.eqb src (playbin (data w))) eqn:Hsrc.
    + apply String.eqb_eq in Hsrc. subst src. rewrite state_changed_cb_pipeline. simpl.
      destruct (refresh_trigger o n); [|reflexivity].
      set (w0 := run (g_print _) _).
      apply (proj2 (refresh_ui_known_duration w0 Hv)).
    + apply String.eqb_neq in Hsrc.
      rewrite state_changed_cb_other by exact Hsrc. reflexivity.
  - unfold _main_bus_message, application_cb. destruct (String.eqb nm _); reflexivity.
Qed.

(** ** The slider *)

(** IEEE comparison, as far as clamping needs it: an ordered pair has no
    NaN in it, and [<] implies [<=]. *)
Lemma SFcompare_refl (x : spec_float) :
  x <> S754_nan -> SFcompare x x = Some Eq.
Proof.
  destruct x as [s|s| |s m e]; intros H; try (contradiction H; reflexivity); simpl.
  - reflexivity.
  - destruct s; reflexivity.
  - destruct s; rewrite Z.compare_refl, ?Pos.compare_refl; simpl;
      rewrite ?Pos.compare_refl; reflexivity.
Qed.

Lemma SFcompare_not_nan (x y : spec_float) (c : comparison) :
  SFcompare x y = Some c -> x <> S754_nan /\ y <> S754_nan.
Proof.
  destruct x, y; simpl; intros H; try discriminate H; split; discriminate.
Qed.

Lemma float_ltb_leb (x y : float) : PrimFloat.ltb x y = true -> PrimFloat.leb x y = true.
Proof.
  rewrite ltb_spec, leb_spec. unfold SFltb, SFleb.
  destruct (SFcompare _ _) as [[]|]; intros H; try discriminate H; reflexivity.
Qed.

Lemma float_leb_refl_of (x y : float) :
  PrimFloat.leb x y = true -> PrimFloat.leb x x = true /\ PrimFloat.leb y y = true.
Proof.
  rewrite !leb_spec. unfold SFleb.
  destruct (SFcompare (Prim2SF x) (Prim2SF y)) as [c|] eqn:Hc; [|discriminate].
  intros _. apply SFcompare_not_nan in Hc. destruct Hc as [Hx Hy].
  rewrite !SFcompare_refl by assumption. split; reflexivity.
Qed.

(** The value of an adjustment lies in its range. *)
Lemma adjustment_clamp_bounds (lo hi v : gdouble) :
  PrimFloat.leb lo hi = true ->
  PrimFloat.leb lo (adjustment_clamp lo hi v) = true /\
  PrimFloat.leb (adjustment_clamp lo hi v) hi = true.
Proof.
  intros Hle. destruct (float_leb_refl_of _ _ Hle) as [Hlo Hhi].
  unfold adjustment_clamp, MAX, MIN.
  destruct (PrimFloat.ltb v hi) eqn:Hv.
  - destruct (PrimFloat.ltb lo v) eqn:Hl.
    + split; apply float_ltb_leb; assumption.
    + split; assumption.
  - destruct (PrimFloat.ltb lo hi) eqn:Hl; split; assumption.
Qed.

Lemma slider_cb_trace (w : World) :
  trace (run slider_cb w) = trace w ++ [slider_seek (data w) (range_value (slider (data w)))].
Proof. reflexivity. Qed.

Lemma user_moves_slider_spec (w : World) (t : gdouble) :
  let r := slider (data w) in
  let c := adjustment_clamp (range_lower r) (range_upper r) t in
  range_value (slider (data (run (user_moves_slider t) w))) =
    (if PrimFloat.eqb c (range_value r) then range_value r else c) /\
  emitted (user_moves_slider t) w =
    (if PrimFloat.eqb c (range_value r) then []
     else match value_changed_handler r with
          | Some _ => if Nat.eqb (handler_block_count r) 0 then [slider_seek (data w) c] else []
          | None => []
          end).
Proof.
  simpl. split.
  - crush_world w. unfold user_moves_slider. widget_unfold. cb_unfold. simpl.
    split_ifs; reflexivity.
  - apply emitted_intro.
    crush_world w. unfold user_moves_slider, slider_seek. widget_unfold. cb_unfold. simpl.
    split_ifs; rewrite ?app_nil_r; reflexivity.
Qed.

Lemma set_value_while_blocked (w : World) (v : gdouble) :
  handler_block_count (slider (data w)) <> 0%nat ->
  emitted (gtk_range_set_value v) w = [E_range_set_value v].
Proof.
  intros Hb. apply emitted_intro. crush_world w. simpl in Hb.
  widget_unfold. cb_unfold. simpl.
  destruct bc as [|n]; [contradiction Hb; reflexivity|].
  split_ifs; reflexivity.
Qed.

Lemma _main_connects_slider (p : GstElement) (h : gulong) (w : World) :
  slider_connected (data (run (_main p h) w)).
Proof. reflexivity. Qed.

(** Without the block the same call does run [slider_cb]: the push of 1.5
    seconds to the unblocked slider ends in a seek. *)
Example set_value_unblocked_seeks :
  emitted (gtk_range_set_value (to_seconds 1500000000)) paused_without_duration =
    [E_range_set_value (to_seconds 1500000000);
     E_seek_simple "pipeline0" GST_FORMAT_TIME 5 1500000000].
Proof. vm_compute. reflexivity. Qed.

(** ** The timer *)

Lemma timeout_ticks_cons (e : Engine) (rest : list Engine) (w : World) :
  run (timeout_ticks (e :: rest)) w =
    run (timeout_ticks rest) (run refresh_ui (set_engine e w)).
Proof.
  unfold run. simpl. unfold bind. destruct (refresh_ui (set_engine e w)). reflexivity.
Qed.

(** Polls whose duration queries all fail, by induction on the ticks. *)
Lemma timeout_ticks_unknown (answers : list Engine) : forall w : World,
  GstState_ltb (state (data w)) GST_STATE_PAUSED = false ->
  duration (data w) = GST_CLOCK_TIME_NONE ->
  Forall (fun e => eng_duration e = None) answers ->
  let w' := run (timeout_ticks answers) w in
  duration (data w') = GST_CLOCK_TIME_NONE /\
  exists l, trace w' = trace w ++ l /\
    filter is_query_duration l = repeat (E_query_duration (playbin (data w))) (length answers) /\
    filter is_query_position l = repeat (E_query_position (playbin (data w))) (length answers) /\
    filter is_range_set_value l =
      map (fun p => E_range_set_value (to_seconds p)) (omap eng_position answers).
Proof.
  induction answers as [|e rest IH]; intros w Hs Hd Hall; cbv zeta.
  - split; [exact Hd|]. exists []. simpl. rewrite app_nil_r. repeat split; reflexivity.
  - inversion Hall as [|? ? He Hrest]; subst. rewrite timeout_ticks_cons.
    set (w0 := set_engine e w).
    assert (Hs0 : GstState_ltb (state (data w0)) GST_STATE_PAUSED = false) by exact Hs.
    destruct (refresh_ui_trace w0 Hs0) as (l1 & Hl1 & Hq1 & Hp1 & Hv1).
    pose proof (refresh_ui_duration w0 Hs0) as Hd1.
    change (duration (data w0)) with (duration (data w)) in Hd1, Hq1.
    rewrite Hd in Hd1, Hq1. simpl in Hd1, Hq1.
    change (eng_duration (engine w0)) with (eng_duration e) in Hd1. rewrite He in Hd1.
    destruct (IH (run refresh_ui w0)) as (Hd2 & l2 & Hl2 & Hq2 & Hp2 & Hv2).
    + rewrite refresh_ui_state. exact Hs0.
    + exact Hd1.
    + exact Hrest.
    + split; [exact Hd2|]. exists (l1 ++ l2).
      rewrite Hl2, Hl1, <- app_assoc. split; [reflexivity|].
      rewrite !filter_app, Hq1, Hp1, Hv1, Hq2, Hp2, Hv2, refresh_ui_playbin.
      change (eng_position (engine w0)) with (eng_position e).
      change (playbin (data w0)) with (playbin (data w)).
      repeat split; try reflexivity.
      simpl. destruct (eng_position e); reflexivity.
Qed.

(** ** End of stream *)

Lemma _eos_cb_trace (p : GstElement) (w : World) :
  trace (run (_eos_cb p) w) =
    trace w ++
      [E_print ("End-Of-Stream reached." +:+ nl); E_print ("End-Of-Stream reached." +:+ nl);
       E_set_state p GST_STATE_READY; eos_seek p]
      ++ (if eng_seek_ok (engine w) then [] else [E_print ("Seek failed!" +:+ nl)])
      ++ [E_set_state p GST_STATE_PLAYING].
Proof.
  unfold _eos_cb. cb_unfold. simpl.
  destruct (eng_seek_ok (engine w)); simpl; repeat rewrite <- app_assoc; reflexivity.
Qed.

(** ** The toggles *)

Lemma button_of_inj (a b : Button) : button_of a = button_of b -> a = b.
Proof. destruct a, b; simpl; intros H; try reflexivity; discriminate H. Qed.

Lemma flag_flip_bit (f : Z) : f = 0 \/ f = 1 -> (if f =? 0 then 1 else 0) = 1 - f.
Proof. intros [->| ->]; reflexivity. Qed.

(** One click, for each of the three buttons. *)
Lemma clicked_spec (b : Button) (w : World) :
  let w1 := run (clicked b) w in
  flag b w1 = (if flag b w =? 0 then 1 else 0) /\
  (forall b', b' <> b -> flag b' w1 = flag b' w) /\
  labels w1 = <[button_of b := label_for b (flag b w1)]> (labels w) /\
  properties w1 =
    match b with
    | FaceArea => <[(facedetect, "display") := flag b w1]> (properties w)
    | _ => properties w
    end /\
  data w1 = data w /\ engine w1 = engine w.
Proof.
  destruct b; toggle_unfold; cb_unfold; simpl;
    match goal with |- context [?f w =? 0] => destruct (f w =? 0) eqn:Hf end; simpl;
    (repeat split; try reflexivity; intros [] Hne; try reflexivity; contradiction Hne; reflexivity).
Qed.

Lemma toggle_traces (w : World) (widget : GtkWidget) (object : option GstElement) :
  emitted (button_faceblur_onoff_func widget object) w =
    [E_print ("button_faceblur_onoff_func" +:+ crnl);
     E_button_set_label widget
       (if _g_is_faceblur_onoff w =? 0 then "face SHOW" else "face HIDE")] /\
  emitted (button_facearea_onoff_func widget object) w =
    [E_print ("button_facearea_onoff_func" +:+ crnl);
     E_object_set object "display" (if _g_is_facearea_onoff w =? 0 then 1 else 0);
     E_button_set_label widget
       (if _g_is_facearea_onoff w =? 0 then "faceArea HIDE" else "faceArea SHOW")] /\
  emitted (button_numberplateblur_onoff_func widget object) w =
    [E_print ("button_numberplateblur_onoff_func" +:+ crnl);
     E_button_set_label widget
       (if _g_is_numberplateblur_onoff w =? 0 then "numberPlate SHOW" else "numberPlate HIDE")].
Proof.
  repeat split; apply emitted_intro; toggle_unfold; cb_unfold; simpl.
  - destruct (_g_is_faceblur_onoff w =? 0); simpl; rewrite <- app_assoc; reflexivity.
  - destruct (_g_is_facearea_onoff w =? 0), object; simpl;
      repeat rewrite <- app_assoc; reflexivity.
  - destruct (_g_is_numberplateblur_onoff w =? 0); simpl; rewrite <- app_assoc; reflexivity.
Qed.

Lemma main_consistent (e : Engine) : toggles_consistent (run main (start e)).
Proof.
  split; [intros []; split; try (left; reflexivity); reflexivity | reflexivity].
Qed.

Lemma clicked_consistent (b : Button) (w : World) :
  toggles_consistent w -> toggles_consistent (run (clicked b) w).
Proof.
  intros [Hb Hp].
  destruct (clicked_spec b w) as (Hf & Ho & Hl & Hpr & _).
  split.
  - intros b'. destruct (decide (b' = b)) as [->|Hne].
    + rewrite Hl, Hf, lookup_insert_eq. split; [|reflexivity].
      destruct (flag b w =? 0); auto.
    + rewrite Hl, (Ho _ Hne), lookup_insert_ne.
      * apply Hb.
      * intros Heq. apply Hne. symmetry. apply button_of_inj, Heq.
  - rewrite Hpr. destruct b.
    + pose proof (Ho FaceArea ltac:(discriminate)) as Ha. unfold flag in Ha.
      rewrite Ha. exact Hp.
    + unfold flag. rewrite lookup_insert_eq. reflexivity.
    + pose proof (Ho FaceArea ltac:(discriminate)) as Ha. unfold flag in Ha.
      rewrite Ha. exact Hp.
Qed.

Lemma main_bus_message_frame (msg : GstMessage) (w : World) :
  _g_is_faceblur_onoff (run (main_bus_message msg) w) = _g_is_faceblur_onoff w /\
  _g_is_facearea_onoff (run (main_bus_message msg) w) = _g_is_facearea_onoff w /\
  _g_is_numberplateblur_onoff (run (main_bus_message msg) w) = _g_is_numberplateblur_onoff w /\
  labels (run (main_bus_message msg) w) = labels w /\
  properties (run (main_bus_message msg) w) = properties w.
Proof. destruct msg; repeat split; reflexivity. Qed.

(** The invariant of the viewer. *)
Lemma reachable_consistent (w : World) : reachable w -> toggles_consistent w.
Proof.
  induction 1 as [e|b w _ IH|msg w _ IH].
  - apply main_consistent.
  - apply clicked_consistent, IH.
  - destruct (main_bus_message_frame msg w) as (H1 & H2 & H3 & H4 & H5).
    destruct IH as [Hb Hp]. split.
    + intros b. rewrite H4.
      destruct b; unfold flag; rewrite ?H1, ?H2, ?H3;
        [apply (Hb FaceBlur) | apply (Hb FaceArea) | apply (Hb NumberPlateBlur)].
    + rewrite H5, H2. exact Hp.
Qed.

(** * The claims *)

(** C1 (as the code has it). On end of stream [_eos_cb] requests READY, issues
    one flushing seek to 0 and then requests PLAYING; when the seek fails it
    prints "Seek failed!" and requests PLAYING all the same, and the seek is
    not tried again.  [eos_cb], the callback both programs connect to
    "message::eos", only prints and requests READY. *)
Theorem eos_restart_sequence (p : GstElement) (w : World) :
  emitted (_eos_cb p) w =
    [E_print ("End-Of-Stream reached." +:+ nl); E_print ("End-Of-Stream reached." +:+ nl);
     E_set_state p GST_STATE_READY; eos_seek p]
    ++ (if eng_seek_ok (engine w) then [] else [E_print ("Seek failed!" +:+ nl)])
    ++ [E_set_state p GST_STATE_PLAYING] /\
  filter is_seek (emitted (_eos_cb p) w) = [eos_seek p] /\
  last_requested_state (emitted (_eos_cb p) w) = Some GST_STATE_PLAYING /\
  emitted eos_cb w =
    [E_print ("End-Of-Stream reached." +:+ nl); E_set_state (playbin (data w)) GST_STATE_READY] /\
  (forall src, main_bus_message (MsgEos src) = eos_cb) /\
  (forall src, _main_bus_message (MsgEos src) = eos_cb).
Proof.
  assert (He : emitted (_eos_cb p) w =
    [E_print ("End-Of-Stream reached." +:+ nl); E_print ("End-Of-Stream reached." +:+ nl);
     E_set_state p GST_STATE_READY; eos_seek p]
    ++ (if eng_seek_ok (engine w) then [] else [E_print ("Seek failed!" +:+ nl)])
    ++ [E_set_state p GST_STATE_PLAYING]).
  { apply emitted_intro, _eos_cb_trace. }
  rewrite He. split; [reflexivity|].
  split; [destruct (eng_seek_ok (engine w)); reflexivity|].
  split; [destruct (eng_seek_ok (engine w)); reflexivity|].
  split; [|split; reflexivity].
  apply emitted_intro. unfold eos_cb. cb_unfold. simpl.
  rewrite <- app_assoc. reflexivity.
Qed.

(** C1, as stated, fails: with a seek that fails, [_eos_cb] still ends by
    requesting PLAYING, so playback is not left stopped; and the callback
    [main] connects neither seeks nor plays. *)
Lemma eos_restart_plays_after_failed_seek :
  eng_seek_ok (engine viewer_at_eos) = false /\
  emitted (_eos_cb pipeline) viewer_at_eos =
    [E_print ("End-Of-Stream reached." +:+ nl); E_print ("End-Of-Stream reached." +:+ nl);
     E_set_state pipeline GST_STATE_READY; eos_seek pipeline;
     E_print ("Seek failed!" +:+ nl); E_set_state pipeline GST_STATE_PLAYING] /\
  last_requested_state (emitted (_eos_cb pipeline) viewer_at_eos) = Some GST_STATE_PLAYING /\
  last_requested_state (emitted (_eos_cb pipeline) viewer_at_eos) <> Some GST_STATE_READY /\
  emitted (main_bus_message (MsgEos pipeline)) viewer_at_eos =
    [E_print ("End-Of-Stream reached." +:+ nl); E_set_state pipeline GST_STATE_READY].
Proof.
  split; [reflexivity|]. split; [reflexivity|].
  split; [reflexivity|]. split; [vm_compute; discriminate | reflexivity].
Qed.

(** C2 (as the code has it). A seek is issued by [slider_cb] alone: with the
    flush and key-unit flags, at the value the slider holds converted to
    nanoseconds, whether or not a duration is cached; [slider_cb] compares
    nothing with [data->duration].  The only bound is the range of the
    slider: 0..100 seconds from [create_ui], and 0..duration/GST_SECOND once
    [refresh_ui] has learnt a duration; a value the user asks for is clamped
    into that range. *)
Theorem slider_cb_seek_target (w : World) :
  emitted slider_cb w = [slider_seek (data w) (range_value (slider (data w)))] /\
  Z.testbit (Z.lor GST_SEEK_FLAG_FLUSH GST_SEEK_FLAG_KEY_UNIT) 0 = true /\
  (forall t, emitted slider_cb (set_data (with_duration t (data w)) w) = emitted slider_cb w) /\
  data (run slider_cb w) = data w /\
  (forall h, range_lower (slider (data (run (create_ui h) w))) = 0%float /\
             range_upper (slider (data (run (create_ui h) w))) = 100%float) /\
  (forall t,
      GstState_ltb (state (data w)) GST_STATE_PAUSED = false ->
      GST_CLOCK_TIME_IS_VALID (duration (data w)) = false ->
      eng_duration (engine w) = Some t ->
      PrimFloat.leb 0%float (to_seconds t) = true ->
      range_lower (slider (data (run refresh_ui w))) = 0%float /\
      range_upper (slider (data (run refresh_ui w))) = to_seconds t) /\
  (forall t,
      let r := slider (data w) in
      let c := adjustment_clamp (range_lower r) (range_upper r) t in
      range_value (slider (data (run (user_moves_slider t) w))) =
        (if PrimFloat.eqb c (range_value r) then range_value r else c)) /\
  (forall lo hi t,
      PrimFloat.leb lo hi = true ->
      PrimFloat.leb lo (adjustment_clamp lo hi t) = true /\
      PrimFloat.leb (adjustment_clamp lo hi t) hi = true).
Proof.
  split; [apply emitted_intro, slider_cb_trace|].
  split; [reflexivity|].
  split; [intros t; rewrite !(emitted_intro _ _ _ (slider_cb_trace _)); reflexivity|].
  split; [destruct w as [[] ? ? ? ? ? ? ?]; reflexivity|].
  split; [intros h; split; reflexivity|].
  split.
  - intros t Hs Hv He Hle. rewrite refresh_ui_run by exact Hs.
    destruct (refresh_position_spec (run refresh_duration w))
      as (_ & _ & _ & _ & _ & -> & -> & _).
    apply refresh_duration_range; assumption.
  - split; [intros t; apply user_moves_slider_spec|].
    intros lo hi t. apply adjustment_clamp_bounds.
Qed.

Lemma slider_cb_seek_target_witness :
  range_lower (slider (data (run refresh_ui paused_without_duration))) = 0%float /\
  range_upper (slider (data (run refresh_ui paused_without_duration))) = 5%float /\
  PrimFloat.leb (adjustment_clamp 0%float 100%float 150%float) 100%float = true.
Proof.
  destruct (slider_cb_seek_target paused_without_duration)
    as (_ & _ & _ & _ & _ & H & _ & Hb).
  destruct (H 5000000000) as [Hlo Hhi]; try reflexivity.
  split; [exact Hlo|]. split; [rewrite Hhi; reflexivity|].
  apply (Hb 0%float 100%float 150%float). reflexivity.
Defined.

(** C2, as stated, fails.  With the duration unknown a request for 150
    seconds does not pass through: the slider made by [create_ui] holds at
    most 100, and the seek goes to 100 seconds.  And [slider_cb] itself
    clamps nothing: with 5 seconds cached as the duration and the slider at
    7, it seeks to 7 seconds. *)
Lemma seek_not_clamped_by_duration :
  (GST_CLOCK_TIME_IS_VALID (duration (data (player silent))) = false /\
   emitted (user_moves_slider 150%float) (player silent) =
     [E_seek_simple "pipeline0" GST_FORMAT_TIME 5 100000000000]) /\
  (duration (data slider_beyond_duration) = 5000000000 /\
   emitted slider_cb slider_beyond_duration =
     [E_seek_simple "pipeline0" GST_FORMAT_TIME 5 7000000000]).
Proof. repeat split; vm_compute; reflexivity. Qed.

(** C3 (as the code has it). While the tracked state is below PAUSED a poll
    queries and changes nothing.  From PAUSED on: an unknown duration is
    queried once per poll, cached when the query succeeds and left unknown
    when it fails, and a known one is not queried; the position is queried
    once per poll and pushed to the slider when the query succeeds; when no
    query succeeds [data] is unchanged.  Over any run of polls whose duration
    queries all fail, the duration stays unknown, it is queried at every
    poll, and the positions pushed are exactly the ones answered. *)
Theorem refresh_ui_poll (w : World) :
  result refresh_ui w = true /\
  (GstState_ltb (state (data w)) GST_STATE_PAUSED = true -> run refresh_ui w = w) /\
  (GstState_ltb (state (data w)) GST_STATE_PAUSED = false ->
   filter is_query_duration (emitted refresh_ui w) =
     (if GST_CLOCK_TIME_IS_VALID (duration (data w)) then []
      else [E_query_duration (playbin (data w))]) /\
   duration (data (run refresh_ui w)) =
     (if GST_CLOCK_TIME_IS_VALID (duration (data w)) then duration (data w)
      else match eng_duration (engine w) with
           | Some t => t
           | None => GST_CLOCK_TIME_NONE
           end) /\
   filter is_query_position (emitted refresh_ui w) = [E_query_position (playbin (data w))] /\
   filter is_range_set_value (emitted refresh_ui w) =
     match eng_position (engine w) with
     | Some p => [E_range_set_value (to_seconds p)]
     | None => []
     end /\
   (GST_CLOCK_TIME_IS_VALID (duration (data w)) = true \/ eng_duration (engine w) = None ->
    eng_position (engine w) = None ->
    data (run refresh_ui w) = data w) /\
   (forall answers : list Engine,
       duration (data w) = GST_CLOCK_TIME_NONE ->
       Forall (fun e => eng_duration e = None) answers ->
       duration (data (run (timeout_ticks answers) w)) = GST_CLOCK_TIME_NONE /\
       length (filter is_query_duration (emitted (timeout_ticks answers) w)) = length answers /\
       length (filter is_query_position (emitted (timeout_ticks answers) w)) = length answers /\
       filter is_range_set_value (emitted (timeout_ticks answers) w) =
         map (fun p => E_range_set_value (to_seconds p)) (omap eng_position answers))).
Proof.
  split; [apply refresh_ui_result|].
  split; [intros Hs; unfold run; rewrite refresh_ui_guarded by exact Hs; reflexivity|].
  intros Hs. destruct (refresh_ui_trace w Hs) as (l & Hl & Hq & Hp & Hv).
  rewrite (emitted_intro _ _ _ Hl).
  split; [exact Hq|]. split; [apply refresh_ui_duration, Hs|].
  split; [exact Hp|]. split; [exact Hv|].
  split; [apply refresh_ui_nothing_answered, Hs|].
  intros answers Hd Hall.
  destruct (timeout_ticks_unknown answers w Hs Hd Hall) as (Hd' & l' & Hl' & Hq' & Hp' & Hv').
  rewrite (emitted_intro _ _ _ Hl'), Hq', Hp', !repeat_length.
  repeat split; assumption.
Qed.

Lemma refresh_ui_poll_witness :
  run refresh_ui ready_world = ready_world /\
  data (run refresh_ui paused_unknown) = data paused_unknown /\
  duration (data (run (timeout_ticks three_failures) paused_unknown)) = GST_CLOCK_TIME_NONE /\
  filter is_range_set_value (emitted (timeout_ticks three_failures) paused_unknown) =
    [E_range_set_value 1%float; E_range_set_value 3%float].
Proof.
  split.
  - destruct (refresh_ui_poll ready_world) as (_ & H & _). apply H. reflexivity.
  - destruct (refresh_ui_poll paused_unknown) as (_ & _ & H).
    destruct (H eq_refl) as (_ & _ & _ & _ & Hsame & Hticks).
    split; [apply Hsame; [right|]; reflexivity|].
    destruct (Hticks three_failures eq_refl) as (Hd & _ & _ & Hv).
    + repeat constructor.
    + split; [exact Hd|]. rewrite Hv. reflexivity.
Defined.

(** C3, as stated, fails: in the READY state a poll queries neither duration
    nor position, though the engine would answer both. *)
Lemma refresh_ui_skips_below_paused :
  state (data ready_world) = GST_STATE_READY /\
  eng_position (engine ready_world) = Some 1500000000 /\
  GST_CLOCK_TIME_IS_VALID (duration (data ready_world)) = false /\
  emitted refresh_ui ready_world = [] /\
  run refresh_ui ready_world = ready_world.
Proof. repeat split; reflexivity. Qed.

(** C4. With [slider_cb] connected as [create_ui] connects it, every push of
    a position by [refresh_ui] is the call of [gtk_range_set_value] with the
    block of the handler right before it and the unblock right after it,
    and nothing in between, so [slider_cb] does not run and no seek is
    issued by the push; the block count is afterwards what it was before,
    and the handler stays connected.  While the handler is blocked,
    [gtk_range_set_value] runs no callback whatever value it is given. *)
Theorem position_push_is_blocked (w : World) :
  slider_connected (data w) ->
  (exists pre,
     emitted refresh_ui w =
       pre ++ (if GstState_ltb (state (data w)) GST_STATE_PAUSED then []
               else match eng_position (engine w) with
                    | Some p => position_push (data w) p
                    | None => []
                    end) /\
     filter is_range_set_value pre = []) /\
  handler_block_count (slider (data (run refresh_ui w))) =
    handler_block_count (slider (data w)) /\
  slider_connected (data (run refresh_ui w)) /\
  (forall v, handler_block_count (slider (data w)) <> 0%nat ->
             emitted (gtk_range_set_value v) w = [E_range_set_value v]).
Proof.
  intros Hc.
  destruct (GstState_ltb (state (data w)) GST_STATE_PAUSED) eqn:Hs.
  - unfold emitted, run. rewrite (refresh_ui_guarded w Hs). simpl.
    split; [exists []; split; [|reflexivity]|].
    + rewrite <- (app_nil_r (trace w)) at 2. apply skipn_length_app.
    + split; [reflexivity|]. split; [exact Hc|]. apply set_value_while_blocked.
  - rewrite (refresh_ui_run w Hs).
    destruct (refresh_duration_spec w)
      as ((l1 & Hl1 & _ & Hv1 & _) & Hpb & _ & Hid & Hh & Hbc & He & _).
    assert (Hc1 : slider_connected (data (run refresh_duration w))).
    { unfold slider_connected. rewrite Hh, Hid. exact Hc. }
    destruct (refresh_position_connected _ Hc1) as [Ht2 Hbc2].
    destruct (refresh_position_spec (run refresh_duration w))
      as (_ & _ & _ & _ & Hid2 & _ & _ & Hh2 & _).
    split; [|split; [|split]].
    + exists (l1 ++ [E_query_position (playbin (data w))]). split.
      * apply emitted_intro. rewrite (refresh_ui_run w Hs), Ht2, Hl1, He, Hpb.
        unfold position_push. rewrite Hid, <- !app_assoc. reflexivity.
      * rewrite filter_app, Hv1. reflexivity.
    + rewrite Hbc2, Hbc. reflexivity.
    + unfold slider_connected. rewrite Hh2, Hid2. exact Hc1.
    + apply set_value_while_blocked.
Qed.

Lemma position_push_is_blocked_witness :
  emitted refresh_ui paused_without_duration =
    [E_query_duration "pipeline0"; E_range_set_range 0%float 5%float;
     E_query_position "pipeline0"]
    ++ position_push (data paused_without_duration) 1500000000 /\
  handler_block_count (slider (data (run refresh_ui paused_without_duration))) = 0%nat /\
  emitted (gtk_range_set_value 2.5%float) (run (g_signal_handler_block 1) paused_without_duration)
    = [E_range_set_value 2.5%float].
Proof.
  split; [vm_compute; reflexivity|]. split.
  - destruct (position_push_is_blocked paused_without_duration) as (_ & Hbc & _).
    + reflexivity.
    + rewrite Hbc. reflexivity.
  - destruct (position_push_is_blocked (run (g_signal_handler_block 1) paused_without_duration))
      as (_ & _ & _ & Hblocked).
    + reflexivity.
    + apply Hblocked. vm_compute. discriminate.
Defined.

(** C5. An error message on the bus of [_main] runs [error_cb]: the error
    is printed, READY is requested from the pipeline whatever was requested
    before, READY is the last request made, nothing is sought or restarted,
    and [data] is left as it was. *)
Theorem error_cb_forces_ready (w : World) (src : GstElement) (err_message : string)
    (debug_info : option string) :
  let m := _main_bus_message (MsgError src err_message debug_info) in
  emitted m w =
    [E_printerr ("Error received from element " +:+ src +:+ ": " +:+ err_message +:+ nl);
     E_printerr ("Debugging information: "
                 +:+ match debug_info with Some s => s | None => "none" end +:+ nl);
     E_set_state (playbin (data w)) GST_STATE_READY] /\
  last_requested_state (trace (run m w)) = Some GST_STATE_READY /\
  filter is_seek (emitted m w) = [] /\
  data (run m w) = data w.
Proof.
  simpl.
  assert (Ht : trace (run (error_cb src err_message debug_info) w) =
    trace w ++
    [E_printerr ("Error received from element " +:+ src +:+ ": " +:+ err_message +:+ nl);
     E_printerr ("Debugging information: "
                 +:+ match debug_info with Some s => s | None => "none" end +:+ nl);
     E_set_state (playbin (data w)) GST_STATE_READY]).
  { unfold error_cb. cb_unfold. simpl. repeat rewrite <- app_assoc. reflexivity. }
  rewrite (emitted_intro _ _ _ Ht). split; [reflexivity|].
  split; [|split; reflexivity].
  unfold error_cb. cb_unfold. simpl. apply last_requested_state_app.
Qed.

(** C6 (as the code has it). A state-changed message triggers the refresh
    exactly when it comes from the pipeline itself and reports READY to
    PAUSED: then [refresh_ui] runs between the print and the graph dump and
    queries the position once; for a message of another element, or any
    other pair of states, no position is queried.  [refresh_ui] never
    changes the tracked state. *)
Theorem state_changed_cb_refresh (w : World) (src : GstElement)
    (old_state new_state pending_state : GstState) :
  let m := state_changed_cb src old_state new_state pending_state in
  let triggered := String.eqb src (playbin (data w)) && refresh_trigger old_state new_state in
  filter is_query_position (emitted m w) =
    (if triggered then [E_query_position (playbin (data w))] else []) /\
  (triggered = true <->
   src = playbin (data w) /\ old_state = GST_STATE_READY /\ new_state = GST_STATE_PAUSED) /\
  (triggered = true ->
   run m w =
     run (emit (E_dump_dot (playbin (data w)) (dump_name old_state new_state)))
       (run refresh_ui
          (run (g_print ("State set to " +:+ gst_element_state_get_name new_state +:+ nl))
             (set_data (with_state new_state (data w)) w)))) /\
  (forall w0, state (data (run refresh_ui w0)) = state (data w0)).
Proof.
  simpl. split; [|split; [|split]].
  - destruct (String.eqb src (playbin (data w))) eqn:Hsrc; simpl.
    + apply String.eqb_eq in Hsrc. subst src.
      pose proof (state_changed_cb_pipeline w old_state new_state pending_state) as Hrun.
      simpl in Hrun.
      destruct (refresh_trigger old_state new_state) eqn:Htr.
      * apply refresh_trigger_spec in Htr. destruct Htr as [-> ->].
        set (w0 := run (g_print _) _) in Hrun.
        destruct (refresh_ui_trace w0) as (l & Hl & _ & Hq & _); [reflexivity|].
        erewrite emitted_intro with (l := [E_print ("State set to PAUSED" +:+ nl)] ++ l ++
                   [E_dump_dot (playbin (data w)) (dump_name GST_STATE_READY GST_STATE_PAUSED)]).
        -- rewrite !filter_app, Hq. reflexivity.
        -- rewrite Hrun. unfold run at 1, emit. simpl. rewrite Hl, refresh_ui_playbin.
           subst w0. cb_unfold. simpl. repeat rewrite <- app_assoc. reflexivity.
      * erewrite emitted_intro with
          (l := [E_print ("State set to " +:+ gst_element_state_get_name new_state +:+ nl);
                 E_dump_dot (playbin (data w)) (dump_name old_state new_state)]).
        -- reflexivity.
        -- rewrite Hrun. cb_unfold. simpl. repeat rewrite <- app_assoc. reflexivity.
    + erewrite emitted_intro with (l := []); [reflexivity|].
      unfold state_changed_cb. cb_unfold. simpl. rewrite Hsrc. simpl.
      rewrite app_nil_r. reflexivity.
  - rewrite andb_true_iff, String.eqb_eq, refresh_trigger_spec. tauto.
  - intros Htr. apply andb_true_iff in Htr. destruct Htr as [Hsrc Htr].
    apply String.eqb_eq in Hsrc. subst src.
    rewrite state_changed_cb_pipeline. simpl. rewrite Htr, refresh_ui_playbin. reflexivity.
  - apply refresh_ui_state.
Qed.

Lemma state_changed_cb_refresh_witness :
  run (state_changed_cb "pipeline0" GST_STATE_READY GST_STATE_PAUSED GST_STATE_PLAYING)
      (player clip_5s) =
    run (emit (E_dump_dot "pipeline0" (dump_name GST_STATE_READY GST_STATE_PAUSED)))
      (run refresh_ui
         (run (g_print ("State set to " +:+ gst_element_state_get_name GST_STATE_PAUSED +:+ nl))
            (set_data (with_state GST_STATE_PAUSED (data (player clip_5s))) (player clip_5s)))).
Proof.
  destruct (state_changed_cb_refresh (player clip_5s) "pipeline0"
              GST_STATE_READY GST_STATE_PAUSED GST_STATE_PLAYING) as (_ & _ & H & _).
  apply H. reflexivity.
Defined.

(** C6, as stated, fails: the READY to PAUSED message of a child element
    triggers no refresh, where the same message of the pipeline does. *)
Lemma child_ready_to_paused_no_refresh :
  emitted (_main_bus_message child_ready_to_paused) (player clip_5s) = [] /\
  filter is_query_position (emitted (_main_bus_message ready_to_paused) (player clip_5s)) =
    [E_query_position "pipeline0"].
Proof. split; [reflexivity | vm_compute; reflexivity]. Qed.

(** C7 (as the code has it). [stop_cb] requests READY and leaves [data],
    the cached duration included, as it was.  The duration is set to
    unknown once, by [_main]; once known it is changed by no button callback,
    bus message or poll, and a poll does not query it again. *)
Theorem stop_cb_keeps_duration (w : World) :
  data (run stop_cb w) = data w /\
  emitted stop_cb w = [E_set_state (playbin (data w)) GST_STATE_READY] /\
  (forall p h, duration (data (run (_main p h) w)) = GST_CLOCK_TIME_NONE) /\
  (GST_CLOCK_TIME_IS_VALID (duration (data w)) = true ->
   duration (data (run play_cb w)) = duration (data w) /\
   duration (data (run pause_cb w)) = duration (data w) /\
   (forall msg, duration (data (run (_main_bus_message msg) w)) = duration (data w)) /\
   duration (data (run refresh_ui w)) = duration (data w) /\
   filter is_query_duration (emitted refresh_ui w) = []).
Proof.
  split; [reflexivity|].
  split; [apply emitted_intro; reflexivity|].
  split; [reflexivity|].
  intros Hv. split; [reflexivity|]. split; [reflexivity|].
  split; [intros msg; apply bus_message_known_duration, Hv|].
  destruct (refresh_ui_known_duration w Hv) as [Hq Hd]. split; assumption.
Qed.

Lemma stop_cb_keeps_duration_witness :
  GST_CLOCK_TIME_IS_VALID (duration (data (run stop_cb playing_5s))) = true /\
  duration (data (run refresh_ui (run stop_cb playing_5s))) = 5000000000.
Proof.
  split; [reflexivity|].
  destruct (stop_cb_keeps_duration (run stop_cb playing_5s)) as (_ & _ & _ & H).
  destruct (H eq_refl) as (_ & _ & _ & Hd & _). rewrite Hd. reflexivity.
Defined.

(** C7, as stated, fails: after [stop_cb] the duration learnt before is
    still cached, and the poll that follows the next play does not query
    it, though the engine would now answer otherwise. *)
Lemma stop_cb_duration_still_known :
  duration (data playing_5s) = 5000000000 /\
  duration (data (run stop_cb playing_5s)) = 5000000000 /\
  duration (data (run stop_cb playing_5s)) <> GST_CLOCK_TIME_NONE /\
  filter is_query_duration (emitted stop_then_play playing_5s) = [] /\
  eng_duration (engine (run stop_then_play playing_5s)) = Some 9000000000 /\
  duration (data (run stop_then_play playing_5s)) = 5000000000.
Proof.
  split; [reflexivity|]. split; [reflexivity|]. split; [vm_compute; discriminate|].
  split; [vm_compute; reflexivity|]. split; vm_compute; reflexivity.
Qed.

(** C8 (as the code has it). Of the three toggles only the face-area one
    sets a parameter: it writes 1 or 0 to the "display" property of the
    element it is given, and nothing else of the properties; the face-blur
    and number-plate toggles change no property at all.  None of the three
    requests a state change of the pipeline. *)
Theorem toggle_parameters (w : World) (widget : GtkWidget) (element : GstElement)
    (object : option GstElement) :
  properties (run (button_facearea_onoff_func widget (Some element)) w) =
    <[(element, "display") := if _g_is_facearea_onoff w =? 0 then 1 else 0]> (properties w) /\
  filter is_object_set (emitted (button_facearea_onoff_func widget (Some element)) w) =
    [E_object_set (Some element) "display" (if _g_is_facearea_onoff w =? 0 then 1 else 0)] /\
  properties (run (button_faceblur_onoff_func widget object) w) = properties w /\
  filter is_object_set (emitted (button_faceblur_onoff_func widget object) w) = [] /\
  properties (run (button_numberplateblur_onoff_func widget object) w) = properties w /\
  filter is_object_set (emitted (button_numberplateblur_onoff_func widget object) w) = [] /\
  filter is_set_state (emitted (button_facearea_onoff_func widget object) w) = [] /\
  filter is_set_state (emitted (button_faceblur_onoff_func widget object) w) = [] /\
  filter is_set_state (emitted (button_numberplateblur_onoff_func widget object) w) = [].
Proof.
  destruct (toggle_traces w widget object) as (Hb & Ha & Hn).
  destruct (toggle_traces w widget (Some element)) as (_ & Ha' & _).
  rewrite Hb, Ha, Hn, Ha'.
  repeat split; try reflexivity; toggle_unfold; cb_unfold; simpl.
  - destruct (_g_is_facearea_onoff w =? 0); reflexivity.
  - destruct (_g_is_faceblur_onoff w =? 0); reflexivity.
  - destruct (_g_is_numberplateblur_onoff w =? 0); reflexivity.
Qed.

(** C8, as stated, fails: clicking the face-blur button, or the number-plate
    button, flips the flag and sets no parameter of any element. *)
Lemma faceblur_toggle_sets_no_parameter :
  _g_is_faceblur_onoff (run (clicked FaceBlur) viewer) = 1 /\
  properties (run (clicked FaceBlur) viewer) = properties viewer /\
  filter is_object_set (emitted (clicked FaceBlur) viewer) = [] /\
  _g_is_numberplateblur_onoff (run (clicked NumberPlateBlur) viewer) = 1 /\
  properties (run (clicked NumberPlateBlur) viewer) = properties viewer /\
  filter is_object_set (emitted (clicked NumberPlateBlur) viewer) = [].
Proof. repeat split; reflexivity. Qed.

(** C9. [state_changed_cb] acts only on messages of the pipeline itself: a
    message of any other element leaves the whole world, [data] included,
    as it was; a message of the pipeline stores the new state. *)
Theorem state_changed_cb_frame (w : World) (src : GstElement)
    (old_state new_state pending_state : GstState) :
  (src <> playbin (data w) ->
   run (state_changed_cb src old_state new_state pending_state) w = w) /\
  (src = playbin (data w) ->
   state (data (run (state_changed_cb src old_state new_state pending_state) w)) = new_state).
Proof.
  split.
  - apply state_changed_cb_other.
  - intros ->. rewrite state_changed_cb_pipeline. simpl.
    destruct (refresh_trigger old_state new_state); [|reflexivity].
    rewrite refresh_ui_state. reflexivity.
Qed.

Lemma state_changed_cb_frame_witness :
  run (_main_bus_message child_ready_to_paused) (player clip_5s) = player clip_5s /\
  state (data (run (_main_bus_message null_to_ready) (player clip_5s))) = GST_STATE_READY.
Proof.
  split.
  - apply (proj1 (state_changed_cb_frame (player clip_5s) "rtspsrc0"
                    GST_STATE_READY GST_STATE_PAUSED GST_STATE_VOID_PENDING)).
    vm_compute. discriminate.
  - apply (proj2 (state_changed_cb_frame (player clip_5s) "pipeline0"
                    GST_STATE_NULL GST_STATE_READY GST_STATE_PLAYING)).
    reflexivity.
Defined.

(** C10. In every state of the viewer each flag is 0 or 1; a click on a
    button flips its flag to the other of the two values and gives the
    button the label of the new flag; a second click restores the flag and
    every label. *)
Theorem toggle_involution (w : World) (b : Button) :
  reachable w ->
  let w1 := run (clicked b) w in
  let w2 := run (clicked b) w1 in
  (flag b w = 0 \/ flag b w = 1) /\
  flag b w1 = 1 - flag b w /\
  labels w1 !! button_of b = Some (label_for b (flag b w1)) /\
  flag b w2 = flag b w /\
  labels w2 = labels w.
Proof.
  intros Hr. apply reachable_consistent in Hr. destruct Hr as [Hb Hp].
  destruct (Hb b) as [H01 Hl].
  destruct (clicked_spec b w) as (Hf & _ & Hl1 & _).
  destruct (clicked_spec b (run (clicked b) w)) as (Hf2 & _ & Hl2 & _).
  simpl. split; [exact H01|].
  split; [rewrite Hf; apply flag_flip_bit, H01|].
  split; [rewrite Hl1; apply lookup_insert_eq|].
  assert (Hback : flag b (run (clicked b) (run (clicked b) w)) = flag b w).
  { rewrite Hf2, Hf. destruct H01 as [-> | ->]; reflexivity. }
  split; [exact Hback|].
  rewrite Hl2, Hl1, Hback, insert_insert_eq. apply insert_id, Hl.
Qed.

Lemma toggle_involution_witness :
  flag FaceArea (run (clicked FaceArea) (run (clicked FaceArea) viewer)) = flag FaceArea viewer /\
  labels (run (clicked FaceArea) (run (clicked FaceArea) viewer)) = labels viewer.
Proof.
  destruct (toggle_involution viewer FaceArea (reachable_main _)) as (_ & _ & _ & Hf & Hl).
  split; [exact Hf | exact Hl].
Defined.

(** * Whole runs: the loops, the windows, the pipeline *)

(** ** What a poll and a slider move leave alone *)

Ltac seeks_done :=
  simpl; rewrite ?String.eqb_refl; simpl; try reflexivity.

Lemma refresh_duration_quiet (w : World) :
  let w' := run refresh_duration w in
  (exists l, trace w' = trace w ++ l /\
     filter is_set_state l = [] /\
     forallb (is_slider_seek (playbin (data w))) l = true /\
     (GST_CLOCK_TIME_IS_VALID (duration (data w)) = true -> l = [])) /\
  streams_list (data w') = streams_list (data w) /\
  _g_is_faceblur_onoff w' = _g_is_faceblur_onoff w /\
  _g_is_facearea_onoff w' = _g_is_facearea_onoff w /\
  _g_is_numberplateblur_onoff w' = _g_is_numberplateblur_onoff w /\
  properties w' = properties w /\ labels w' = labels w.
Proof.
  crush_world w. widget_unfold. cb_unfold.
  simpl. destruct (GST_CLOCK_TIME_IS_VALID du) eqn:Hv; simpl.
  - split; [exists []; rewrite app_nil_r; auto|]. repeat split; reflexivity.
  - split_ifs;
      (split; [simpl; repeat rewrite <- app_assoc; simpl; eexists; split; [reflexivity|];
               seeks_done; repeat split; try reflexivity; intros; discriminate
              | repeat split; reflexivity]).
Qed.

Lemma refresh_position_quiet (w : World) :
  let w' := run refresh_position w in
  (exists l, trace w' = trace w ++ l /\
     filter is_set_state l = [] /\
     forallb (is_slider_seek (playbin (data w))) l = true) /\
  streams_list (data w') = streams_list (data w) /\
  _g_is_faceblur_onoff w' = _g_is_faceblur_onoff w /\
  _g_is_facearea_onoff w' = _g_is_facearea_onoff w /\
  _g_is_numberplateblur_onoff w' = _g_is_numberplateblur_onoff w /\
  properties w' = properties w /\ labels w' = labels w.
Proof.
  crush_world w. widget_unfold. cb_unfold.
  split_ifs;
    (split; [simpl; repeat rewrite <- app_assoc; simpl; eexists; split; [reflexivity|];
             seeks_done; repeat split; reflexivity
            | repeat split; reflexivity]).
Qed.

(** ** One callback of the player *)

Lemma steps_refl (w : World) : steps [] None false w w.
Proof.
  unfold steps. do 6 (split; [auto|]).
  exists []. rewrite app_nil_r. repeat split; auto.
Qed.

Lemma steps_trans (r1 r2 : list GstState) (n1 n2 : option GstState) (s1 s2 : bool)
    (w w' w'' : World) :
  steps r1 n1 s1 w w' -> steps r2 n2 s2 w' w'' ->
  steps (r1 ++ r2) (match n2 with Some s => Some s | None => n1 end) (s1 || s2) w w''.
Proof.
  intros (Hp1 & Hi1 & Hs1 & Hr1 & Hst1 & Hd1 & l1 & Ht1 & Hq1 & Hk1 & Hn1 & Hu1)
         (Hp2 & Hi2 & Hs2 & Hr2 & Hst2 & Hd2 & l2 & Ht2 & Hq2 & Hk2 & Hn2 & Hu2).
  unfold steps. rewrite Hp2, Hp1, Hi2, Hi1, Hs2, Hs1.
  split; [reflexivity|]. split; [reflexivity|]. split; [reflexivity|].
  split; [auto|].
  split; [rewrite Hst2; destruct n2; [reflexivity | exact Hst1]|].
  split.
  - intros Hv. rewrite Hd2, Hd1; auto. rewrite Hd1; auto.
  - exists (l1 ++ l2). rewrite Ht2, Ht1, <- app_assoc. split; [reflexivity|].
    rewrite filter_app, forallb_app, Hq1, Hq2, Hk1, map_app.
    rewrite Hp1 in Hq2, Hk2 |- *. rewrite Hk2.
    split; [reflexivity|]. split; [reflexivity|]. split.
    + intros Hs Hr Hv. apply orb_false_iff in Hs. destruct Hs as [-> ->].
      rewrite filter_app, Hn1, Hn2; auto. rewrite Hd1; auto.
    + intros Hv. rewrite filter_app, Hu1, Hu2; auto. rewrite Hd1; auto.
Qed.

Lemma steps_request (s : GstState) (w : World) :
  steps [s] None false w (run (d <- get_data ;; gst_element_set_state (playbin d) s) w).
Proof.
  unfold steps. cb_unfold. simpl. do 6 (split; [auto|]).
  exists [E_set_state (playbin (data w)) s]. repeat split; reflexivity.
Qed.

Lemma steps_refresh_ui (w : World) : steps [] None false w (run refresh_ui w).
Proof.
  destruct (GstState_ltb (state (data w)) GST_STATE_PAUSED) eqn:Hs.
  - unfold run. rewrite refresh_ui_guarded by exact Hs. apply steps_refl.
  - destruct (refresh_duration_spec w)
      as (_ & Hpb & _ & Hid & Hh & Hbc & He & _).
    destruct (refresh_duration_quiet w) as ((l1 & Ht1 & Hq1 & Hk1 & Hv1) & Hsl1 & _).
    destruct (refresh_position_spec (run refresh_duration w))
      as (_ & Hpb2 & _ & _ & Hid2 & _ & _ & Hh2 & _).
    destruct (refresh_position_quiet (run refresh_duration w))
      as ((l2 & Ht2 & Hq2 & Hk2) & Hsl2 & _).
    unfold steps. rewrite refresh_ui_state, refresh_ui_playbin.
    rewrite (refresh_ui_run w Hs), Hid2, Hid, Hsl2, Hsl1.
    split; [reflexivity|]. split; [reflexivity|]. split; [reflexivity|].
    assert (Hready : slider_ready w ->
              slider_connected (data (run refresh_duration w)) /\
              slider_ready (run refresh_position (run refresh_duration w))).
    { intros [Hc Hb]. assert (Hc1 : slider_connected (data (run refresh_duration w))).
      { unfold slider_connected. rewrite Hh, Hid. exact Hc. }
      split; [exact Hc1|].
      destruct (refresh_position_connected _ Hc1) as [_ Hbc2].
      split.
      - unfold slider_connected. rewrite Hh2, Hid2. exact Hc1.
      - rewrite Hbc2, Hbc. exact Hb. }
    split; [intros Hr; apply Hready, Hr|].
    split; [reflexivity|].
    split.
    { intros Hv. rewrite <- (refresh_ui_run w Hs).
      apply (proj2 (refresh_ui_known_duration w Hv)). }
    exists (l1 ++ l2). rewrite Ht2, Ht1, <- app_assoc. split; [reflexivity|].
    rewrite filter_app, forallb_app, Hq1, Hq2, Hk1. rewrite Hpb in Hk2. rewrite Hk2.
    split; [reflexivity|]. split; [reflexivity|]. split.
    + intros _ Hr Hv. rewrite (Hv1 Hv). simpl.
      destruct (Hready Hr) as [Hc1 _].
      destruct (refresh_position_connected _ Hc1) as [Ht3 _].
      rewrite Ht2 in Ht3. apply app_inv_head in Ht3. rewrite Ht3.
      unfold position_push. destruct (eng_position _); reflexivity.
    + intros Hv. rewrite <- (proj1 (refresh_ui_known_duration w Hv)).
      symmetry. f_equal. apply emitted_intro.
      rewrite (refresh_ui_run w Hs), Ht2, Ht1, <- app_assoc. reflexivity.
Qed.

Lemma steps_user_moves_slider (t : gdouble) (w : World) :
  steps [] None true w (run (user_moves_slider t) w).
Proof.
  unfold steps, slider_ready, slider_connected.
  crush_world w. unfold user_moves_slider. widget_unfold. cb_unfold. simpl.
  destruct (PrimFloat.eqb _ v); simpl.
  - do 6 (split; [auto|]). exists []. rewrite app_nil_r.
    repeat split; auto; try (intros; discriminate).
  - destruct h as [h|]; simpl.
    + destruct bc as [|n]; simpl.
      * do 6 (split; [auto|]). eexists. split; [reflexivity|]. seeks_done.
        repeat split; auto; try (intros; discriminate).
      * do 6 (split; [auto|]). exists []. rewrite app_nil_r.
        repeat split; auto; try (intros; discriminate).
    + do 6 (split; [auto|]). exists []. rewrite app_nil_r.
      repeat split; auto; try (intros; discriminate).
Qed.

Lemma steps_emit_quiet (e : Effect) (w : World) :
  is_set_state e = false -> is_seek e = false -> is_query_duration e = false ->
  steps [] None false w (run (emit e) w).
Proof.
  intros Hs Hk Hu. unfold steps. cb_unfold. simpl. do 6 (split; [auto|]).
  exists [e]. split; [reflexivity|].
  destruct e; try discriminate Hk; try discriminate Hs; try discriminate Hu;
    repeat split; reflexivity.
Qed.

Lemma steps_store_state (s : GstState) (w : World) :
  steps [] (Some s) false w (set_data (with_state s (data w)) w).
Proof.
  unfold steps. simpl. do 6 (split; [auto|]).
  exists []. rewrite app_nil_r. repeat split; auto.
Qed.

Lemma steps_set_engine (e : Engine) (w : World) : steps [] None false w (set_engine e w).
Proof.
  unfold steps. simpl. do 6 (split; [auto|]).
  exists []. rewrite app_nil_r. repeat split; auto.
Qed.

(** One message on the bus of the player. *)
Lemma steps_bus_message (msg : GstMessage) (w : World) :
  steps (message_requests msg) (message_reports (playbin (data w)) msg) false
        w (run (_main_bus_message msg) w).
Proof.
  destruct msg as [src e d|src|src o n p|src nm|src]; simpl.
  - unfold steps, error_cb. cb_unfold. simpl. do 6 (split; [auto|]).
    eexists. split; [repeat rewrite <- app_assoc; reflexivity|].
    repeat split; reflexivity.
  - unfold steps, eos_cb. cb_unfold. simpl. do 6 (split; [auto|]).
    eexists. split; [repeat rewrite <- app_assoc; reflexivity|].
    repeat split; reflexivity.
  - destruct (String.eqb src (playbin (data w))) eqn:Hsrc.
    + apply String.eqb_eq in Hsrc. subst src. rewrite state_changed_cb_pipeline. simpl.
      set (w0 := run (g_print _) _).
      assert (H0 : steps [] (Some n) false w w0).
      { subst w0.
        apply (steps_trans [] [] (Some n) None false false _ _ _ (steps_store_state n w)).
        apply steps_emit_quiet; reflexivity. }
      destruct (refresh_trigger o n).
      * apply (steps_trans [] [] (Some n) None false false _ _ _
                 (steps_trans [] [] (Some n) None false false _ _ _ H0 (steps_refresh_ui w0))).
        apply steps_emit_quiet; reflexivity.
      * apply (steps_trans [] [] (Some n) None false false _ _ _ H0).
        apply steps_emit_quiet; reflexivity.
    + apply String.eqb_neq in Hsrc. rewrite state_changed_cb_other by exact Hsrc.
      apply steps_refl.
  - unfold application_cb. destruct (String.eqb nm _); apply steps_refl.
  - apply steps_refl.
Qed.

(** ** One event of the player *)

Lemma dispatch_bus_nil (h : GstMessage -> M unit) (g : Gui) :
  bus g = [] -> dispatch_bus h g = g.
Proof. destruct g. simpl. intros ->. reflexivity. Qed.

Lemma state_request_message (msg : GstMessage) :
  state_request (BusMessage msg) = message_requests msg.
Proof. destruct msg; reflexivity. Qed.

Lemma player_event_step (ev : PlayerEvent) (g : Gui) :
  bus g = [] -> is_delete ev = false ->
  let g' := dispatch_bus _main_bus_message (player_signals ev g) in
  steps (state_request ev) (event_reports (playbin (data (world g))) ev) (is_slider_moved ev)
        (world g) (world g') /\
  bus g' = [] /\
  quit_requested (player_signals ev g) = quit_requested g /\
  quit_requested g' = quit_requested g.
Proof.
  intros Hb Hd.
  destruct ev as [| | |t| |a| |s|msg|e]; try discriminate Hd; simpl.
  - rewrite dispatch_bus_nil by exact Hb.
    split; [apply (steps_request GST_STATE_PLAYING) | repeat split; auto].
  - rewrite dispatch_bus_nil by exact Hb.
    split; [apply (steps_request GST_STATE_PAUSED) | repeat split; auto].
  - rewrite dispatch_bus_nil by exact Hb.
    split; [apply (steps_request GST_STATE_READY) | repeat split; auto].
  - rewrite dispatch_bus_nil by exact Hb.
    split; [apply steps_user_moves_slider | repeat split; auto].
  - unfold draw_cb. destruct (GstState_ltb _ _); simpl;
      rewrite dispatch_bus_nil by exact Hb;
      (split; [apply steps_refl | repeat split; auto]).
  - unfold timeout. destruct (timeout_active g); simpl;
      rewrite dispatch_bus_nil by exact Hb;
      (split; [first [apply steps_refresh_ui | apply steps_refl] | repeat split; auto]).
  - unfold dispatch_bus, tags_cb, gst_element_post_message. rewrite Hb. simpl.
    split; [apply steps_refl | repeat split; auto].
  - unfold dispatch_bus, gst_element_post_message. rewrite Hb. simpl.
    split; [|repeat split; auto].
    pose proof (steps_bus_message msg (world g)) as H.
    rewrite <- state_request_message in H. exact H.
  - rewrite dispatch_bus_nil by exact Hb.
    split; [apply steps_set_engine | repeat split; auto].
Qed.

Lemma player_delete_step (g : Gui) :
  steps [GST_STATE_READY] None false (world g) (world (delete_event_cb g)) /\
  quit_requested (delete_event_cb g) = true.
Proof. split; [apply (steps_request GST_STATE_READY) | reflexivity]. Qed.

(** ** The loop of the player *)

Lemma steps_loosen (r : list GstState) (n : option GstState) (s : bool) (w w' : World) :
  steps r n false w w' -> steps r (Some (state (data w'))) s w w'.
Proof.
  intros (Hp & Hi & Hs & Hr & Hst & Hd & l & Ht & Hq & Hk & Hn & Hu).
  unfold steps. do 4 (split; [assumption|]). split; [reflexivity|]. split; [assumption|].
  exists l. do 3 (split; [assumption|]).
  split; [intros _; apply Hn; reflexivity | exact Hu].
Qed.

Lemma player_loop (events : list PlayerEvent) : forall g : Gui,
  loop_fresh g ->
  let g' := gtk_main player_signals _main_bus_message events g in
  let p := playbin (data (world g)) in
  steps (state_requests events)
        (Some (reported_state p events (state (data (world g)))))
        (existsb is_slider_moved events) (world g) (world g') /\
  quit_requested g' = existsb is_delete events /\
  (quit_requested g' = false -> bus g' = []).
Proof.
  induction events as [|ev rest IH]; intros g [Hb Hq]; cbv zeta.
  - simpl. split; [|split; [exact Hq | intros _; exact Hb]].
    exact (steps_loosen _ _ _ _ _ (steps_refl (world g))).
  - destruct (is_delete ev) eqn:Hd.
    + destruct ev; try discriminate Hd. simpl.
      destruct (player_delete_step g) as [Hs _].
      split; [|split; [reflexivity | intros H; discriminate H]].
      exact (steps_loosen _ _ _ _ _ Hs).
    + destruct (player_event_step ev g Hb Hd) as (Hs & Hb' & Hq1 & Hq2).
      assert (Hloop : gtk_main player_signals _main_bus_message (ev :: rest) g =
                      gtk_main player_signals _main_bus_message rest
                        (dispatch_bus _main_bus_message (player_signals ev g))).
      { simpl. rewrite Hq1, Hq. reflexivity. }
      rewrite Hloop.
      set (g1 := dispatch_bus _main_bus_message (player_signals ev g)) in *.
      destruct (IH g1) as (Hs' & Hq' & Hb'').
      { split; [exact Hb' | rewrite Hq2; exact Hq]. }
      assert (Hp : playbin (data (world g1)) = playbin (data (world g))) by apply Hs.
      assert (Hst : state (data (world g1)) =
                match event_reports (playbin (data (world g))) ev with
                | Some s => s
                | None => state (data (world g))
                end) by apply Hs.
      rewrite Hp, Hst in Hs'.
      pose proof (steps_trans _ _ _ _ _ _ _ _ _ Hs Hs') as Ht.
      simpl in Ht.
      split; [|split; [|exact Hb'']].
      * assert (Hreq : state_requests (ev :: rest) = state_request ev ++ state_requests rest).
        { destruct ev; try discriminate Hd; reflexivity. }
        assert (Hrep : reported_state (playbin (data (world g))) (ev :: rest)
                         (state (data (world g))) =
                       reported_state (playbin (data (world g))) rest
                         match event_reports (playbin (data (world g))) ev with
                         | Some s => s
                         | None => state (data (world g))
                         end).
        { destruct ev as [| | |t| |a| |s|msg|e]; try discriminate Hd; try reflexivity.
          destruct msg; try reflexivity. simpl.
          destruct (String.eqb _ _); reflexivity. }
        rewrite Hreq, Hrep. exact Ht.
      * rewrite Hq'. simpl. rewrite Hd. reflexivity.
Qed.

Lemma gui_emitted_intro (g g' : Gui) (l : list Effect) :
  trace (world g') = trace (world g) ++ l -> gui_emitted g g' = l.
Proof. unfold gui_emitted. intros ->. apply skipn_length_app. Qed.

Lemma last_requested_state_none (l : list Effect) :
  filter is_set_state l = [] -> last_requested_state l = None.
Proof.
  induction l as [|x l IH]; intros H; [reflexivity|].
  simpl. destruct x; simpl in H; try discriminate H; rewrite (IH H); reflexivity.
Qed.

Lemma last_requested_state_filter (l t : list Effect) (e : GstElement) (s : GstState) :
  filter is_set_state l = t ++ [E_set_state e s] -> last_requested_state l = Some s.
Proof.
  revert t. induction l as [|x l IH]; intros t H.
  - destruct t; discriminate H.
  - simpl. destruct x; simpl in H; try (rewrite (IH t H); reflexivity).
    destruct t as [|y t].
    + simpl in H. injection H as -> -> Hl.
      rewrite (last_requested_state_none l Hl). reflexivity.
    + simpl in H. injection H as _ Hl. rewrite (IH t Hl). reflexivity.
Qed.

Lemma state_requests_end (events : list PlayerEvent) :
  existsb is_delete events = true ->
  exists pre, state_requests events = pre ++ [GST_STATE_READY].
Proof.
  induction events as [|ev rest IH]; simpl; [discriminate|].
  destruct (is_delete ev) eqn:Hd; simpl.
  - destruct ev; try discriminate Hd. intros _. exists []. reflexivity.
  - intros H. destruct (IH H) as [pre Hpre].
    exists (state_request ev ++ pre).
    destruct ev; try discriminate Hd; simpl; rewrite ?Hpre, ?app_assoc; reflexivity.
Qed.

(** ** The player: what was proved of single callbacks, over whole runs *)

(** X1. The video window is painted black on a redraw exactly while the
    state last stored is below PAUSED: after a state-changed message of the
    pipeline the decision follows the new state, after one of another
    element it follows the state stored before.  [draw_cb] always returns
    FALSE and touches nothing but the window. *)
Theorem draw_follows_reported_state (g : Gui) (allocation : GtkAllocation)
    (src : GstElement) (old_state new_state pending_state : GstState) :
  bus g = [] ->
  let msg := MsgStateChanged src old_state new_state pending_state in
  let g1 := dispatch_bus _main_bus_message (player_signals (BusMessage msg) g) in
  let shown := if String.eqb src (playbin (data (world g))) then new_state
               else state (data (world g)) in
  fst (draw_cb allocation g1) = false /\
  world (snd (draw_cb allocation g1)) = world g1 /\
  video_window (snd (draw_cb allocation g1)) =
    video_window g ++
      (if GstState_ltb shown GST_STATE_PAUSED then black_rectangle allocation else []).
Proof.
  intros Hb. cbv zeta.
  destruct (player_event_step
              (BusMessage (MsgStateChanged src old_state new_state pending_state)) g Hb eq_refl)
    as ((_ & _ & _ & _ & Hst & _) & _).
  set (g1 := dispatch_bus _ _) in *.
  assert (Hv : video_window g1 = video_window g).
  { subst g1. unfold dispatch_bus. simpl. rewrite Hb. reflexivity. }
  simpl in Hst. unfold draw_cb. rewrite Hst.
  destruct (String.eqb src (playbin (data (world g))));
    destruct (GstState_ltb _ GST_STATE_PAUSED); simpl; rewrite ?Hv, ?app_nil_r;
    repeat split; reflexivity.
Qed.

Lemma draw_follows_reported_state_witness :
  video_window
    (snd (draw_cb (mkGtkAllocation 0 0 640 480)
            (dispatch_bus _main_bus_message
               (player_signals (BusMessage null_to_ready) (player_gui clip_5s))))) =
    black_rectangle (mkGtkAllocation 0 0 640 480).
Proof.
  destruct (draw_follows_reported_state (player_gui clip_5s) (mkGtkAllocation 0 0 640 480)
              "pipeline0" GST_STATE_NULL GST_STATE_READY GST_STATE_PLAYING eq_refl)
    as (_ & _ & H).
  exact H.
Defined.

(** X2. However the events of the loop are interleaved, the state the
    player keeps is the new state of the last state-changed message of the
    pipeline that the loop got to handle; no click, poll, seek, redraw,
    error, end of stream or message of a child changes it. *)
Theorem tracked_state_is_last_reported (events : list PlayerEvent) (g : Gui) :
  loop_fresh g ->
  state (data (world (gtk_main player_signals _main_bus_message events g))) =
    reported_state (playbin (data (world g))) events (state (data (world g))).
Proof.
  intros Hf. destruct (player_loop events g Hf) as ((_ & _ & _ & _ & Hst & _) & _).
  exact Hst.
Qed.

Lemma tracked_state_is_last_reported_witness :
  state (data (world (gtk_main player_signals _main_bus_message
                        [BusMessage null_to_ready; PlayClicked; BusMessage child_ready_to_paused;
                         Timeout; BusMessage (MsgEos "pipeline0")]
                        (player_gui clip_5s)))) = GST_STATE_READY.
Proof.
  rewrite tracked_state_is_last_reported; [reflexivity | split; reflexivity].
Defined.

(** X3. The handler of the slider is never left blocked: from a slider
    that is connected and unblocked, any run of the loop ends with it
    connected and unblocked, so that a move of the slider by the user that
    changes its value always reaches [slider_cb] and is answered by exactly
    one seek, to the clamped value. *)
Theorem slider_stays_ready (events : list PlayerEvent) (g : Gui) :
  loop_fresh g -> slider_ready (world g) ->
  let w' := world (gtk_main player_signals _main_bus_message events g) in
  slider_ready w' /\
  forall t,
    let r := slider (data w') in
    let c := adjustment_clamp (range_lower r) (range_upper r) t in
    PrimFloat.eqb c (range_value r) = false ->
    emitted (user_moves_slider t) w' = [slider_seek (data w') c].
Proof.
  intros Hf Hr. destruct (player_loop events g Hf) as ((_ & _ & _ & Hready & _) & _).
  cbv zeta. specialize (Hready Hr). split; [exact Hready|].
  intros t Hne.
  destruct (user_moves_slider_spec
              (world (gtk_main player_signals _main_bus_message events g)) t) as [_ He].
  cbv zeta in He. rewrite He, Hne.
  destruct Hready as [Hc Hb]. unfold slider_connected in Hc. rewrite Hc, Hb. reflexivity.
Qed.

Lemma slider_stays_ready_witness :
  emitted (user_moves_slider 3%float)
    (world (gtk_main player_signals _main_bus_message
              [BusMessage null_to_ready; BusMessage ready_to_paused; Timeout]
              (player_gui clip_5s))) =
    [E_seek_simple "pipeline0" GST_FORMAT_TIME 5 3000000000].
Proof.
  destruct (slider_stays_ready [BusMessage null_to_ready; BusMessage ready_to_paused; Timeout]
              (player_gui clip_5s)) as [_ H].
  - split; reflexivity.
  - split; reflexivity.
  - rewrite (H 3%float); [vm_compute; reflexivity | vm_compute; reflexivity].
Defined.

(** X4. A change of tags is posted on the bus as the application message
    "tags-changed" and, once dispatched, changes nothing: [application_cb]
    ignores it, as [_main_bus_message] ignores every application message and
    every message it has no callback for; so no run of the loop ever
    writes the text of the streams. *)
Theorem tags_change_nothing (g : Gui) :
  (forall stream,
      bus g = [] ->
      bus (player_signals (TagsChanged stream) g) =
        [MsgApplication (playbin (data (world g))) "tags-changed"] /\
      world (dispatch_bus _main_bus_message (player_signals (TagsChanged stream) g)) = world g /\
      bus (dispatch_bus _main_bus_message (player_signals (TagsChanged stream) g)) = []) /\
  (forall src name w, run (_main_bus_message (MsgApplication src name)) w = w) /\
  (forall src w, run (_main_bus_message (MsgOther src)) w = w) /\
  (forall events,
      loop_fresh g ->
      streams_list (data (world (gtk_main player_signals _main_bus_message events g))) =
        streams_list (data (world g))).
Proof.
  split; [|split; [|split]].
  - intros stream Hb. unfold dispatch_bus. simpl.
    unfold tags_cb, gst_element_post_message. rewrite Hb. simpl.
    repeat split; reflexivity.
  - intros src name w. simpl. unfold application_cb.
    destruct (String.eqb name _); reflexivity.
  - reflexivity.
  - intros events Hf.
    destruct (player_loop events g Hf) as ((_ & _ & Hsl & _) & _). exact Hsl.
Qed.

Lemma tags_change_nothing_witness :
  world (dispatch_bus _main_bus_message (player_signals (TagsChanged 0) (player_gui clip_5s))) =
    world (player_gui clip_5s) /\
  streams_list (data (world (gtk_main player_signals _main_bus_message
                               [BusMessage null_to_ready; TagsChanged 0; TagsChanged 1]
                               (player_gui clip_5s)))) = EmptyString.
Proof.
  destruct (tags_change_nothing (player_gui clip_5s)) as (Ht & _ & _ & Hs).
  split.
  - apply (Ht 0). reflexivity.
  - rewrite Hs; [reflexivity | split; reflexivity].
Defined.

(** X5. The states the player asks of its pipeline during the loop are
    exactly the ones of its commands, in the order of the events: PLAYING,
    PAUSED and READY for the three buttons, READY for an error, for the end
    of the stream and for the closing of the window, which is the last.  A
    poll, a seek, a redraw, a change of tags or a state report asks for
    none. *)
Theorem requests_follow_commands (events : list PlayerEvent) (g : Gui) :
  loop_fresh g ->
  let g' := gtk_main player_signals _main_bus_message events g in
  filter is_set_state (gui_emitted g g') =
    map (E_set_state (playbin (data (world g)))) (state_requests events) /\
  quit_requested g' = existsb is_delete events /\
  (existsb is_delete events = true ->
   last_requested_state (gui_emitted g g') = Some GST_STATE_READY).
Proof.
  intros Hf. cbv zeta.
  destruct (player_loop events g Hf)
    as ((_ & _ & _ & _ & _ & _ & l & Ht & Hq & _) & Hquit & _).
  rewrite (gui_emitted_intro _ _ _ Ht). split; [exact Hq|]. split; [exact Hquit|].
  intros Hd. destruct (state_requests_end events Hd) as [pre Hpre].
  rewrite Hpre, map_app in Hq. simpl in Hq.
  exact (last_requested_state_filter _ _ _ _ Hq).
Qed.

Lemma requests_follow_commands_witness :
  filter is_set_state
    (gui_emitted (player_gui clip_5s)
       (gtk_main player_signals _main_bus_message
          [PlayClicked; Timeout; BusMessage (MsgEos "pipeline0"); PauseClicked; DeleteEvent;
           PlayClicked]
          (player_gui clip_5s))) =
    [E_set_state "pipeline0" GST_STATE_PLAYING; E_set_state "pipeline0" GST_STATE_READY;
     E_set_state "pipeline0" GST_STATE_PAUSED; E_set_state "pipeline0" GST_STATE_READY].
Proof.
  destruct (requests_follow_commands
              [PlayClicked; Timeout; BusMessage (MsgEos "pipeline0"); PauseClicked; DeleteEvent;
               PlayClicked] (player_gui clip_5s)) as (H & _).
  - split; reflexivity.
  - rewrite H. reflexivity.
Defined.



(** ** The player as a program *)

Lemma _main_trace (p : GstElement) (h : gulong) (w : World) :
  trace (run (_main p h) w) = trace w ++ [E_set_state p GST_STATE_PLAYING] /\
  playbin (data (run (_main p h) w)) = p /\
  state (data (run (_main p h) w)) = GST_STATE_VOID_PENDING /\
  duration (data (run (_main p h) w)) = GST_CLOCK_TIME_NONE.
Proof. crush_world w. repeat split; reflexivity. Qed.

(** X7. How [_main] ends.  When the pipeline description does not parse,
    or the pipeline refuses to play, it returns -1 without entering the
    loop: no button, timer or message is served.  Otherwise it returns,
    with 0, exactly when the window is closed, and then the pipeline was
    asked for PLAYING first, for what the events before the closing
    commanded, for READY by [delete_event_cb] and for NULL last; events
    after the closing are not served. *)
Theorem _main_program_exit (launched : option GstElement) (dot_dir : bool)
    (handler_id : gulong) (ret : GstStateChangeReturn) (events : list PlayerEvent) (g : Gui) :
  loop_fresh g ->
  let r := _main_program launched dot_dir handler_id ret events g in
  let requested := filter is_set_state (gui_emitted g (snd r)) in
  match launched with
  | None => fst r = Exited (-1) /\ requested = [] /\ timeout_active (snd r) = timeout_active g
  | Some p =>
      if state_change_failed ret then
        fst r = Exited (-1) /\ requested = [E_set_state p GST_STATE_PLAYING] /\
        timeout_active (snd r) = timeout_active g
      else
        fst r = (if existsb is_delete events then Exited 0 else Running) /\
        requested =
          map (E_set_state p)
              (GST_STATE_PLAYING :: state_requests events ++
               (if existsb is_delete events then [GST_STATE_NULL] else []))
  end.
Proof.
  intros [Hb Hq]. cbv zeta.
  destruct launched as [p|].
  - assert (Hloop : forall g0 : Gui,
               bus g0 = [] -> quit_requested g0 = false ->
               playbin (data (world g0)) = p ->
               forall l0, trace (world g0) = trace (world g) ++ l0 ->
               filter is_set_state l0 = [E_set_state p GST_STATE_PLAYING] ->
               let r := (let g1 := gtk_main player_signals _main_bus_message events g0 in
                         if quit_requested g1
                         then (Exited 0,
                               in_world (d <- get_data ;;
                                         gst_element_set_state (playbin d) GST_STATE_NULL) g1)
                         else (Running, g1)) in
               fst r = (if existsb is_delete events then Exited 0 else Running) /\
               filter is_set_state (gui_emitted g (snd r)) =
                 map (E_set_state p)
                     (GST_STATE_PLAYING :: state_requests events ++
                      (if existsb is_delete events then [GST_STATE_NULL] else []))).
    { intros g0 Hb0 Hq0 Hp0 l0 Ht0 Hl0. cbv zeta.
      destruct (player_loop events g0 (conj Hb0 Hq0))
        as ((Hp & _ & _ & _ & _ & _ & l & Ht & Hs & _) & Hquit & _).
      rewrite Hp0 in Hs. rewrite Hquit.
      destruct (existsb is_delete events); simpl fst; simpl snd.
      - split; [reflexivity|].
        pose proof (steps_request GST_STATE_NULL
                      (world (gtk_main player_signals _main_bus_message events g0)))
          as (_ & _ & _ & _ & _ & _ & l1 & Ht1 & Hs1 & _).
        rewrite Hp, Hp0 in Hs1.
        erewrite gui_emitted_intro.
        2: { unfold in_world, with_world. simpl world. rewrite Ht1, Ht, Ht0.
             rewrite <- !app_assoc. reflexivity. }
        rewrite !filter_app, Hl0, Hs, Hs1. simpl. rewrite map_app. reflexivity.
      - split; [reflexivity|].
        erewrite gui_emitted_intro.
        2: { rewrite Ht, Ht0. rewrite <- !app_assoc. reflexivity. }
        rewrite !filter_app, Hl0, Hs. simpl. rewrite app_nil_r. reflexivity. }
    destruct g as [w q ta ws vw b loc ch lk]. simpl in Hb, Hq. subst b q.
    crush_world w.
    destruct ret; simpl state_change_failed; cbv iota;
      try (destruct dot_dir;
           (eapply Hloop; [reflexivity | reflexivity | reflexivity | |];
            [unfold _main_program; simpl; rewrite <- app_assoc; reflexivity | reflexivity])).
    destruct dot_dir; (split; [reflexivity | split; [|reflexivity]]);
      (erewrite gui_emitted_intro; [|simpl; rewrite <- !app_assoc; reflexivity]); reflexivity.
  - destruct g as [w q ta ws vw b loc ch lk]. crush_world w.
    destruct dot_dir; (split; [reflexivity | split; [|reflexivity]]);
      (erewrite gui_emitted_intro; [|simpl; rewrite <- !app_assoc; reflexivity]); reflexivity.
Qed.

Lemma _main_program_exit_witness :
  fst (_main_program (Some "pipeline0") true 1 GST_STATE_CHANGE_ASYNC
         [PauseClicked; DeleteEvent; PlayClicked] (desktop (start clip_5s))) = Exited 0 /\
  filter is_set_state
    (gui_emitted (desktop (start clip_5s))
       (snd (_main_program (Some "pipeline0") true 1 GST_STATE_CHANGE_ASYNC
               [PauseClicked; DeleteEvent; PlayClicked] (desktop (start clip_5s))))) =
    [E_set_state "pipeline0" GST_STATE_PLAYING; E_set_state "pipeline0" GST_STATE_PAUSED;
     E_set_state "pipeline0" GST_STATE_READY; E_set_state "pipeline0" GST_STATE_NULL].
Proof.
  exact (_main_program_exit (Some "pipeline0") true 1 GST_STATE_CHANGE_ASYNC
           [PauseClicked; DeleteEvent; PlayClicked] (desktop (start clip_5s))
           (conj eq_refl eq_refl)).
Defined.

(** X8. Once the duration is known it is kept for as long as the loop
    runs, whatever the events, and the engine is never asked for it again:
    no callback resets it, not even [stop_cb] or the end of the stream. *)
Theorem known_duration_outlives_the_loop (events : list PlayerEvent) (g : Gui) :
  loop_fresh g ->
  GST_CLOCK_TIME_IS_VALID (duration (data (world g))) = true ->
  let g' := gtk_main player_signals _main_bus_message events g in
  duration (data (world g')) = duration (data (world g)) /\
  filter is_query_duration (gui_emitted g g') = [].
Proof.
  intros Hf Hv. cbv zeta.
  destruct (player_loop events g Hf)
    as ((_ & _ & _ & _ & _ & Hd & l & Ht & _ & _ & _ & Hu) & _).
  rewrite (gui_emitted_intro _ _ _ Ht). split; [exact (Hd Hv) | exact (Hu Hv)].
Qed.

Lemma known_duration_outlives_the_loop_witness :
  duration (data (world (gtk_main player_signals _main_bus_message
                           [StopClicked; BusMessage paused_to_ready; EngineAnswers clip_9s;
                            PlayClicked; BusMessage ready_to_paused; Timeout]
                           (desktop playing_5s)))) = 5000000000.
Proof.
  destruct (known_duration_outlives_the_loop
              [StopClicked; BusMessage paused_to_ready; EngineAnswers clip_9s;
               PlayClicked; BusMessage ready_to_paused; Timeout]
              (desktop playing_5s)) as [H _].
  - split; reflexivity.
  - reflexivity.
  - rewrite H. reflexivity.
Defined.

Lemma dispatch_bus_timeout (h : GstMessage -> M unit) (g : Gui) :
  timeout_active (dispatch_bus h g) = timeout_active g.
Proof.
  unfold dispatch_bus.
  assert (H : forall msgs g0,
             timeout_active (fold_left (fun g1 msg => in_world (h msg) g1) msgs g0) =
             timeout_active g0).
  { induction msgs as [|msg msgs IH]; intros g0; [reflexivity|].
    simpl. rewrite IH. reflexivity. }
  rewrite H. reflexivity.
Qed.

(** X9. The poll stays registered: [refresh_ui] returns TRUE on both of its
    paths, so glib never drops the timer, whatever the loop serves; and
    [_main] enters the loop only with the timer registered. *)
Theorem poll_stays_registered (events : list PlayerEvent) (g : Gui) :
  timeout_active (gtk_main player_signals _main_bus_message events g) = timeout_active g /\
  (forall p dot_dir handler_id ret,
      state_change_failed ret = false ->
      timeout_active (snd (_main_program (Some p) dot_dir handler_id ret events g)) = true).
Proof.
  assert (Hloop : forall events g,
             timeout_active (gtk_main player_signals _main_bus_message events g) =
             timeout_active g).
  { clear. induction events as [|ev rest IH]; intros g; [reflexivity|].
    assert (Hstep : timeout_active (player_signals ev g) = timeout_active g).
    { destruct ev; try reflexivity.
      - simpl. unfold draw_cb. destruct (GstState_ltb _ _); reflexivity.
      - simpl. unfold timeout. destruct (timeout_active g) eqn:Ha; [|exact Ha].
        simpl. apply refresh_ui_result. }
    simpl. destruct (quit_requested (player_signals ev g)); [exact Hstep|].
    rewrite IH, dispatch_bus_timeout. exact Hstep. }
  split; [apply Hloop|].
  intros p dot_dir handler_id ret Hr. unfold _main_program.
  destruct ret; try discriminate Hr;
    (match goal with
     | |- context [gtk_main player_signals _main_bus_message events ?g0] =>
         pose proof (Hloop events g0) as H;
         destruct (quit_requested (gtk_main player_signals _main_bus_message events g0))
     end; simpl; simpl in H; rewrite H; reflexivity).
Qed.

(** ** The loop of the viewer *)

Lemma clicked_quiet (b : Button) (w : World) :
  exists l, trace (run (clicked b) w) = trace w ++ l /\
    filter is_set_state l = [] /\ filter is_seek l = [].
Proof.
  destruct b; toggle_unfold; cb_unfold; simpl;
    match goal with |- context [?f w =? 0] => destruct (f w =? 0) end; simpl;
    repeat rewrite <- app_assoc; eexists; (split; [reflexivity|]); split; reflexivity.
Qed.

Lemma main_bus_message_consistent (msg : GstMessage) (w : World) :
  toggles_consistent w -> toggles_consistent (run (main_bus_message msg) w).
Proof.
  intros [Hb Hp].
  destruct (main_bus_message_frame msg w) as (H1 & H2 & H3 & H4 & H5). split.
  - intros b. rewrite H4.
    destruct b; unfold flag; rewrite ?H1, ?H2, ?H3;
      [apply (Hb FaceBlur) | apply (Hb FaceArea) | apply (Hb NumberPlateBlur)].
  - rewrite H5, H2. exact Hp.
Qed.

Lemma main_bus_message_quiet (msg : GstMessage) (w : World) :
  data (run (main_bus_message msg) w) = data w /\
  exists l, trace (run (main_bus_message msg) w) = trace w ++ l /\
    filter is_set_state l =
      map (E_set_state (playbin (data w)))
          (match msg with MsgEos _ => [GST_STATE_READY] | _ => [] end) /\
    filter is_seek l = [].
Proof.
  destruct msg; simpl;
    try (split; [reflexivity|]; exists []; rewrite app_nil_r; repeat split; reflexivity).
  unfold eos_cb. cb_unfold. simpl. split; [reflexivity|].
  eexists. split; [repeat rewrite <- app_assoc; reflexivity|]. split; reflexivity.
Qed.

Lemma pad_linked_app (p : GstPad) (l1 l2 : list (GstPad * GstPad)) :
  pad_linked p (l1 ++ l2) = pad_linked p l1 || pad_linked p l2.
Proof. unfold pad_linked. apply existsb_app. Qed.

Lemma pad_linked_sink (pad p : GstPad) : pad_linked p [(pad, p)] = true.
Proof.
  unfold pad_linked. simpl. rewrite (bool_decide_true (p = p)) by reflexivity.
  rewrite orb_true_r. reflexivity.
Qed.

(** One pad announced by the source. *)
Lemma on_pad_added_spec (pad : GstPad) (compatible : bool) (g : Gui) :
  let g' := on_pad_added "source" pad "demux" compatible g in
  world g' = world g /\ bus g' = bus g /\ quit_requested g' = quit_requested g /\
  window_shown g' = window_shown g /\ children g' = children g /\
  links g' =
    (if negb (pad_linked pad (links g)) && negb (pad_linked demux_sink (links g)) && compatible
     then links g ++ [(pad, demux_sink)] else links g).
Proof.
  unfold on_pad_added. cbv zeta.
  change (gst_element_get_static_pad "demux" "sink") with demux_sink. unfold gst_pad_link.
  destruct (pad_linked pad (links g)), (pad_linked demux_sink (links g)), compatible;
    simpl; repeat split; reflexivity.
Qed.

Lemma viewer_requests_cons (ev : ViewerEvent) (rest : list ViewerEvent) :
  is_window_deleted ev = false ->
  viewer_requests (ev :: rest) = viewer_requests [ev] ++ viewer_requests rest.
Proof.
  destruct ev as [b| |msg|pad c]; try discriminate; intros _; try reflexivity.
  destruct msg; reflexivity.
Qed.

(** One event of the viewer other than the closing of the window. *)
Lemma viewer_event_step (ev : ViewerEvent) (g : Gui) :
  bus g = [] -> quit_requested g = false -> is_window_deleted ev = false ->
  let g1 := dispatch_bus main_bus_message (viewer_signals ev g) in
  data (world g1) = data (world g) /\
  (toggles_consistent (world g) -> toggles_consistent (world g1)) /\
  (exists l, trace (world g1) = trace (world g) ++ l /\
     (playbin (data (world g)) = pipeline ->
      filter is_set_state l = map (E_set_state pipeline) (viewer_requests [ev])) /\
     filter is_seek l = []) /\
  bus g1 = [] /\ quit_requested (viewer_signals ev g) = false /\
  quit_requested g1 = false /\
  window_shown g1 = window_shown g /\ children g1 = children g /\
  (links g1 = links g \/
   exists pad, links g1 = links g ++ [(pad, demux_sink)] /\
     pad_linked demux_sink (links g) = false /\ ev = PadAdded pad true) /\
  (forall b, flag b (world g1) =
             match ev with
             | Clicked b' =>
                 if bool_decide (b' = b) then (if flag b (world g) =? 0 then 1 else 0)
                 else flag b (world g)
             | _ => flag b (world g)
             end).
Proof.
  intros Hb Hq Hd. cbv zeta.
  destruct ev as [b| |msg|pad c]; try discriminate Hd.
  - simpl. rewrite dispatch_bus_nil by exact Hb. simpl.
    destruct (clicked_spec b (world g)) as (Hflag & Hother & _ & _ & Hdata & _).
    destruct (clicked_quiet b (world g)) as (l & Ht & Hs & Hk).
    split; [exact Hdata|]. split; [apply clicked_consistent|].
    split; [exists l; rewrite Hs; auto|]. do 5 (split; [auto|]).
    split; [left; reflexivity|].
    intros b'. destruct (decide (b = b')) as [<-|Hne].
    + rewrite bool_decide_true by reflexivity. exact Hflag.
    + rewrite bool_decide_false by assumption. apply Hother. congruence.
  - unfold viewer_signals, dispatch_bus, gst_element_post_message. rewrite Hb. simpl.
    destruct (main_bus_message_quiet msg (world g)) as (Hdata & l & Ht & Hs & Hk).
    destruct (main_bus_message_frame msg (world g)) as (H1 & H2 & H3 & _).
    split; [exact Hdata|]. split; [apply main_bus_message_consistent|].
    split.
    { exists l. split; [exact Ht|]. split; [|exact Hk].
      intros Hp. rewrite Hs, Hp. destruct msg; reflexivity. }
    do 5 (split; [auto|]). split; [left; reflexivity|].
    intros []; assumption.
  - unfold viewer_signals.
    destruct (on_pad_added_spec pad c g) as (Hw & Hb1 & Hq1 & Hws & Hch & Hl).
    cbv zeta in Hw, Hb1, Hq1, Hws, Hch, Hl.
    rewrite dispatch_bus_nil by (rewrite Hb1; exact Hb).
    rewrite Hw, Hb1, Hq1, Hws, Hch, Hl.
    split; [reflexivity|]. split; [auto|].
    split; [exists []; rewrite app_nil_r; repeat split; auto|].
    do 5 (split; [auto|]). split; [|reflexivity].
    destruct (pad_linked pad (links g)); simpl; [left; reflexivity|].
    destruct (pad_linked demux_sink (links g)) eqn:Hds; simpl; [left; reflexivity|].
    destruct c; [|left; reflexivity].
    right. exists pad. repeat split; reflexivity.
Qed.

(** What a run of the viewer's loop did: the flags, labels and overlay stay
    consistent, the requests are those of [viewer_requests], nothing seeks,
    the bin keeps its children and gains at most one link, into the sink pad
    of the depayloader from a compatible pad the source announced. *)
Lemma viewer_loop (events : list ViewerEvent) : forall g : Gui,
  loop_fresh g ->
  let g' := gtk_main viewer_signals main_bus_message events g in
  data (world g') = data (world g) /\
  (toggles_consistent (world g) -> toggles_consistent (world g')) /\
  (exists l, trace (world g') = trace (world g) ++ l /\
     (playbin (data (world g)) = pipeline ->
      filter is_set_state l = map (E_set_state pipeline) (viewer_requests events)) /\
     filter is_seek l = []) /\
  quit_requested g' = existsb is_window_deleted events /\
  window_shown g' = window_shown g && negb (existsb is_window_deleted events) /\
  children g' = children g /\
  (links g' = links g \/
   exists pad, links g' = links g ++ [(pad, demux_sink)] /\
     pad_linked demux_sink (links g) = false /\ In (PadAdded pad true) events).
Proof.
  induction events as [|ev rest IH]; intros g [Hb Hq]; cbv zeta.
  - simpl. rewrite andb_true_r.
    split; [reflexivity|]. split; [auto|].
    split; [exists []; rewrite app_nil_r; split; [reflexivity|]; split; auto|].
    do 3 (split; [auto|]). left. reflexivity.
  - destruct (is_window_deleted ev) eqn:Hd.
    + destruct ev; try discriminate Hd. simpl.
      split; [reflexivity|]. split; [auto|].
      split; [exists [E_set_state pipeline GST_STATE_NULL]; split; [reflexivity|]; split; auto|].
      rewrite andb_false_r. do 3 (split; [auto|]). left. reflexivity.
    + set (g1 := dispatch_bus main_bus_message (viewer_signals ev g)).
      destruct (viewer_event_step ev g Hb Hq Hd)
        as (Hdata & Hcons & (l1 & Ht1 & Hs1 & Hk1) & Hb1 & Hq0 & Hq1 & Hws1 & Hch1 & Hl1 & _).
      fold g1 in Hdata, Hcons, Ht1, Hb1, Hq1, Hws1, Hch1, Hl1.
      assert (Hloop : gtk_main viewer_signals main_bus_message (ev :: rest) g =
                      gtk_main viewer_signals main_bus_message rest g1).
      { simpl. rewrite Hq0. reflexivity. }
      rewrite Hloop.
      destruct (IH g1 (conj Hb1 Hq1))
        as (Hdata2 & Hcons2 & (l2 & Ht2 & Hs2 & Hk2) & Hq2 & Hws2 & Hch2 & Hl2).
      split; [rewrite Hdata2; exact Hdata|]. split; [auto|].
      split.
      { exists (l1 ++ l2). rewrite Ht2, Ht1, <- app_assoc. split; [reflexivity|].
        split.
        - intros Hp. rewrite filter_app, Hs1, Hs2, <- map_app, <- viewer_requests_cons; auto.
          rewrite Hdata. exact Hp.
        - rewrite filter_app, Hk1, Hk2. reflexivity. }
      split; [rewrite Hq2; simpl; rewrite Hd; reflexivity|].
      split; [rewrite Hws2, Hws1; simpl; rewrite Hd; reflexivity|].
      split; [rewrite Hch2; exact Hch1|].
      destruct Hl1 as [Hl1|(pad & Hl1 & Hfree & Hev)].
      * rewrite Hl1 in Hl2. destruct Hl2 as [Hl2|(pad & Hl2 & Hfree & Hin)].
        -- left. exact Hl2.
        -- right. exists pad. repeat split; auto. right. exact Hin.
      * destruct Hl2 as [Hl2|(pad2 & _ & Hfree2 & _)].
        -- right. exists pad. rewrite Hl2. repeat split; auto. left. exact Hev.
        -- rewrite Hl1, pad_linked_app, pad_linked_sink, orb_true_r in Hfree2.
           discriminate Hfree2.
Qed.


Lemma viewer_requests_in (events : list ViewerEvent) (s : GstState) :
  In s (viewer_requests events) -> s = GST_STATE_READY \/ s = GST_STATE_NULL.
Proof.
  induction events as [|ev rest IH]; simpl; [intros []|].
  destruct ev as [b| |msg|pad c]; try exact IH.
  - intros [<-|[]]. right. reflexivity.
  - destruct msg; try exact IH. intros [<-|H]; [left; reflexivity | exact (IH H)].
Qed.

Lemma viewer_requests_end (events : list ViewerEvent) :
  existsb is_window_deleted events = true ->
  exists pre, viewer_requests events = pre ++ [GST_STATE_NULL].
Proof.
  induction events as [|ev rest IH]; simpl; [discriminate|].
  destruct ev as [b| |msg|pad c]; simpl; try exact IH.
  - intros _. exists []. reflexivity.
  - intros H. destruct (IH H) as [pre Hpre]. rewrite Hpre.
    destruct msg; try (exists pre; reflexivity).
    exists (GST_STATE_READY :: pre). reflexivity.
Qed.

(** X10. The viewer never restarts playback.  In its loop the pipeline is
    asked for READY at each end of stream, by [eos_cb], the handler [main]
    connects, and for NULL when the window is closed, and for nothing else:
    no click, message or pad makes it seek or asks for PLAYING again. *)
Theorem viewer_never_restarts (events : list ViewerEvent) (g : Gui) :
  loop_fresh g ->
  playbin (data (world g)) = pipeline ->
  let g' := gtk_main viewer_signals main_bus_message events g in
  filter is_set_state (gui_emitted g g') = map (E_set_state pipeline) (viewer_requests events) /\
  filter is_seek (gui_emitted g g') = [] /\
  (forall element s,
      In (E_set_state element s) (gui_emitted g g') ->
      element = pipeline /\ (s = GST_STATE_READY \/ s = GST_STATE_NULL)).
Proof.
  intros Hf Hp. cbv zeta.
  destruct (viewer_loop events g Hf) as (_ & _ & (l & Ht & Hs & Hk) & _).
  rewrite (gui_emitted_intro _ _ _ Ht). specialize (Hs Hp).
  split; [exact Hs|]. split; [exact Hk|].
  intros element s Hin.
  assert (Hf' : In (E_set_state element s) (filter is_set_state l)).
  { apply list_elem_of_In, list_elem_of_filter. split; [exact I|].
    apply list_elem_of_In, Hin. }
  rewrite Hs in Hf'. apply in_map_iff in Hf'. destruct Hf' as (s' & Heq & Hin').
  injection Heq as <- <-. split; [reflexivity|]. exact (viewer_requests_in _ _ Hin').
Qed.

Lemma viewer_never_restarts_witness :
  filter is_set_state
    (gui_emitted viewer_gui
       (gtk_main viewer_signals main_bus_message
          [Clicked FaceArea; ViewerMessage (MsgEos "pipeline");
           PadAdded ("source", "recv_rtp_src_0") true; Clicked FaceBlur; WindowDeleted;
           ViewerMessage (MsgEos "pipeline")]
          viewer_gui)) =
    [E_set_state "pipeline" GST_STATE_READY; E_set_state "pipeline" GST_STATE_NULL].
Proof.
  destruct (viewer_never_restarts
              [Clicked FaceArea; ViewerMessage (MsgEos "pipeline");
               PadAdded ("source", "recv_rtp_src_0") true; Clicked FaceBlur; WindowDeleted;
               ViewerMessage (MsgEos "pipeline")]
              viewer_gui) as [H _].
  - split; reflexivity.
  - reflexivity.
  - rewrite H. reflexivity.
Defined.

(** X11. How [main] ends.  Its status is 0 on every path: when the
    pipeline refuses to play, it is set to NULL and [main] returns at once,
    serving no event and leaving the window as it was; otherwise [main]
    returns exactly when the window is closed, and then the window is
    hidden.  In both cases NULL is the last state asked of the pipeline. *)
Theorem main_exit_status (sret : GstStateChangeReturn) (events : list ViewerEvent) (g : Gui) :
  loop_fresh g ->
  playbin (data (world g)) = pipeline ->
  let r := main_exit sret events g in
  fst r = (if state_change_failed sret || existsb is_window_deleted events
           then Exited 0 else Running) /\
  (fst r = Exited 0 -> last_requested_state (gui_emitted g (snd r)) = Some GST_STATE_NULL) /\
  (state_change_failed sret = true ->
   gui_emitted g (snd r) = [E_set_state pipeline GST_STATE_NULL] /\
   window_shown (snd r) = window_shown g) /\
  (state_change_failed sret = false ->
   window_shown (snd r) = window_shown g && negb (existsb is_window_deleted events)).
Proof.
  intros Hf Hp. cbv zeta.
  assert (Hfail : gui_emitted g (in_world (gst_element_set_state pipeline GST_STATE_NULL) g) =
                  [E_set_state pipeline GST_STATE_NULL]).
  { apply gui_emitted_intro. reflexivity. }
  destruct (viewer_loop events g Hf) as (_ & _ & (l & Ht & Hs & _) & Hq & Hws & _).
  specialize (Hs Hp).
  assert (Hrun : forall r : Exit * Gui,
             r = (let g1 := gtk_main viewer_signals main_bus_message events g in
                  if quit_requested g1 then (Exited 0, g1) else (Running, g1)) ->
             fst r = (if existsb is_window_deleted events then Exited 0 else Running) /\
             (fst r = Exited 0 ->
              last_requested_state (gui_emitted g (snd r)) = Some GST_STATE_NULL) /\
             window_shown (snd r) =
               window_shown g && negb (existsb is_window_deleted events)).
  { intros r ->. cbv zeta. rewrite Hq.
    destruct (existsb is_window_deleted events) eqn:Hd; simpl fst; simpl snd.
    - split; [reflexivity|]. split; [|exact Hws]. intros _.
      destruct (viewer_requests_end events Hd) as [pre Hpre].
      rewrite (gui_emitted_intro _ _ _ Ht).
      rewrite Hpre, map_app in Hs. exact (last_requested_state_filter _ _ _ _ Hs).
    - split; [reflexivity|]. split; [discriminate|exact Hws]. }
  destruct sret; simpl state_change_failed; rewrite ?orb_false_l, ?orb_true_l;
    try (destruct (Hrun _ eq_refl) as (H1 & H2 & H3);
         split; [exact H1|]; split; [exact H2|]; split; [discriminate | intros _; exact H3]).
  simpl. rewrite Hfail.
  split; [reflexivity|]. split; [reflexivity|]. split; [auto | discriminate].
Qed.

Lemma main_exit_status_witness :
  fst (main_exit GST_STATE_CHANGE_FAILURE [Clicked FaceArea] viewer_gui) = Exited 0 /\
  fst (main_exit GST_STATE_CHANGE_ASYNC [Clicked FaceArea; WindowDeleted] viewer_gui) = Exited 0 /\
  window_shown (snd (main_exit GST_STATE_CHANGE_ASYNC [Clicked FaceArea; WindowDeleted]
                       viewer_gui)) = false.
Proof.
  split; [|split].
  - exact (proj1 (main_exit_status GST_STATE_CHANGE_FAILURE [Clicked FaceArea] viewer_gui
                    (conj eq_refl eq_refl) eq_refl)).
  - exact (proj1 (main_exit_status GST_STATE_CHANGE_ASYNC [Clicked FaceArea; WindowDeleted]
                    viewer_gui (conj eq_refl eq_refl) eq_refl)).
  - exact (proj2 (proj2 (proj2 (main_exit_status GST_STATE_CHANGE_ASYNC
                                  [Clicked FaceArea; WindowDeleted] viewer_gui
                                  (conj eq_refl eq_refl) eq_refl))) eq_refl).
Defined.


(** X13. The source is linked once.  Whatever pads the source announces
    while the loop runs, the bin keeps its children and gains at most one
    link, from a compatible announced pad into the sink pad of the
    depayloader, and only if that pad was free; with it free, the first
    compatible pad announced is the one linked, and every later pad is
    refused. *)
Theorem source_pad_linked_once (events : list ViewerEvent) (g : Gui) :
  loop_fresh g ->
  let g' := gtk_main viewer_signals main_bus_message events g in
  children g' = children g /\
  (links g' = links g \/
   exists pad, links g' = links g ++ [(pad, demux_sink)] /\
     pad_linked demux_sink (links g) = false /\ In (PadAdded pad true) events) /\
  (forall pad,
      pad_linked pad (links g) = false ->
      pad_linked demux_sink (links g) = false ->
      links (gtk_main viewer_signals main_bus_message (PadAdded pad true :: events) g) =
        links g ++ [(pad, demux_sink)]).
Proof.
  intros Hf. cbv zeta.
  destruct (viewer_loop events g Hf) as (_ & _ & _ & _ & _ & Hch & Hl).
  split; [exact Hch|]. split; [exact Hl|].
  intros pad Hpad Hfree.
  destruct (on_pad_added_spec pad true g) as (Hw & Hb1 & Hq1 & _ & _ & Hl1).
  cbv zeta in Hw, Hb1, Hq1, Hl1. rewrite Hpad, Hfree in Hl1. simpl in Hl1.
  destruct Hf as [Hb Hq].
  change (gtk_main viewer_signals main_bus_message (PadAdded pad true :: events) g)
    with (let g1 := on_pad_added "source" pad "demux" true g in
          if quit_requested g1 then g1
          else gtk_main viewer_signals main_bus_message events
                 (dispatch_bus main_bus_message g1)).
  cbv zeta. rewrite Hq1, Hq.
  rewrite dispatch_bus_nil by (rewrite Hb1; exact Hb).
  destruct (viewer_loop events (on_pad_added "source" pad "demux" true g))
    as (_ & _ & _ & _ & _ & _ & Hl2).
  { split; [rewrite Hb1; exact Hb | rewrite Hq1; exact Hq]. }
  destruct Hl2 as [Hl2|(pad2 & _ & Hfree2 & _)].
  - rewrite Hl2. exact Hl1.
  - rewrite Hl1, pad_linked_app, pad_linked_sink, orb_true_r in Hfree2. discriminate Hfree2.
Qed.

Lemma source_pad_linked_once_witness :
  links (gtk_main viewer_signals main_bus_message
           [PadAdded ("source", "recv_rtp_src_0") true; Clicked FaceArea;
            PadAdded ("source", "recv_rtp_src_1") true]
           viewer_gui) =
    [(("source", "recv_rtp_src_0"), demux_sink)].
Proof.
  destruct (source_pad_linked_once
              [Clicked FaceArea; PadAdded ("source", "recv_rtp_src_1") true] viewer_gui)
    as (_ & _ & H).
  - split; reflexivity.
  - apply (H ("source", "recv_rtp_src_0")); reflexivity.
Defined.

(** ** The pipeline of the viewer *)

Lemma asserted_factories_spec (registry : gset string) :
  asserted_factories ⊆ registry <->
  bool_decide ("rtspsrc" ∈ registry) = true /\ bool_decide ("rtph264depay" ∈ registry) = true /\
  bool_decide ("h264parse" ∈ registry) = true /\ bool_decide ("capsfilter" ∈ registry) = true /\
  bool_decide ("avdec_h264" ∈ registry) = true /\
  bool_decide ("videoconvert" ∈ registry) = true /\
  bool_decide ("ximagesink" ∈ registry) = true.
Proof.
  rewrite !bool_decide_eq_true. unfold asserted_factories.
  rewrite !union_subseteq, !singleton_subseteq_l. tauto.
Qed.

Ltac factory f :=
  match goal with
  | |- context [bool_decide (f ∈ ?r)] =>
      let H := fresh "Hf" in
      destruct (bool_decide (f ∈ r)) eqn:H; cbn [g_assert mbind option_bind]
  end.

Ltac aborted :=
  split; [intros [? H]; discriminate H | intros H; decompose [and] H; discriminate].

Lemma main_pipeline_aborts (registry : gset string)
    (link_ok : GstElement -> GstElement -> bool) (g : Gui) :
  is_Some (main_pipeline registry link_ok g) <-> asserted_factories ⊆ registry.
Proof.
  rewrite asserted_factories_spec.
  unfold main_pipeline, gst_element_factory_make.
  factory "rtspsrc"; [|aborted].
  factory "rtph264depay"; [|aborted].
  factory "h264parse"; [|aborted].
  factory "capsfilter"; [|aborted].
  factory "avdec_h264"; [|aborted].
  factory "videoconvert"; [|aborted].
  factory "ximagesink"; [|aborted].
  split; [tauto | intros _; eexists; reflexivity].
Qed.

Lemma faceblur_not_asked (registry : gset string) (f : string) :
  f <> "faceblur" ->
  bool_decide (f ∈ registry ∪ {["faceblur"]}) = bool_decide (f ∈ registry) /\
  bool_decide (f ∈ registry ∖ {["faceblur"]}) = bool_decide (f ∈ registry).
Proof.
  intros Hne. split; apply bool_decide_ext.
  - rewrite elem_of_union, elem_of_singleton. tauto.
  - rewrite elem_of_difference, elem_of_singleton. tauto.
Qed.

Lemma gst_element_link_many_from_cons (link_ok : GstElement -> GstElement -> bool)
    (a b : GstElement) (rest : list (option GstElement)) (g : Gui) :
  gst_element_link_many_from link_ok a (Some b :: rest) g =
    if pad_linked (a, "src") (links g) || pad_linked (b, "sink") (links g) then (false, g)
    else if link_ok a b
         then gst_element_link_many_from link_ok b rest
                (with_links (links g ++ [((a, "src"), (b, "sink"))]) g)
         else (false, g).
Proof.
  simpl. unfold gst_element_link, gst_pad_link.
  destruct (pad_linked _ _ || pad_linked _ _); [reflexivity|].
  destruct (link_ok a b); reflexivity.
Qed.

Ltac link_step H :=
  rewrite gst_element_link_many_from_cons in H;
  cbn [links with_links world quit_requested timeout_active window_shown video_window bus
       location children app] in H;
  match type of H with
  | context [pad_linked ?p ?l || pad_linked ?p2 ?l2] =>
      let v := eval vm_compute in (pad_linked p l || pad_linked p2 l2) in
      change (pad_linked p l || pad_linked p2 l2) with v in H
  end;
  cbv iota in H.

Ltac link_done H :=
  cbn [gst_element_link_many_from with_links links world quit_requested timeout_active
       window_shown video_window bus location children app] in H;
  subst; cbn [fst snd world location children links andb];
  repeat split; try reflexivity; try (intros; discriminate).

Ltac link_all H :=
  first
    [ link_step H;
      match type of H with
      | _ = (if ?c then _ else _) => destruct c; [link_all H | link_done H]
      end
    | link_done H ].

(** The bin and the links [gst_bin_add_many] and [gst_element_link_many]
    leave, link by link. *)
Lemma link_many_result (link_ok : GstElement -> GstElement -> bool) (with_overlay : bool)
    (w : World) (q ta ws : bool) (vw : list CairoOp) (b : list GstMessage)
    (loc : option string) :
  let g0 := mkGui w q ta ws vw b loc [] [] in
  let overlay := if with_overlay then Some facedetect else None in
  let r := gst_element_link_many link_ok
             [Some "demux"; Some "parse"; Some "filter"; Some "decodebin"; Some "videoConvert";
              overlay; Some "videoConvert2"; Some "sink"]
             (gst_bin_add_many
                [Some "source"; Some "demux"; Some "parse"; Some "filter"; Some "decodebin";
                 Some "videoConvert"; overlay; Some "videoConvert2"; Some "sink"] g0) in
  let all_ok := forallb (fun p => link_ok (fst p) (snd p)) (link_chain with_overlay) in
  fst r = all_ok /\
  world (snd r) = w /\ location (snd r) = loc /\
  children (snd r) =
    ["source"; "demux"; "parse"; "filter"; "decodebin"; "videoConvert"] ++
    (if with_overlay then [facedetect; "videoConvert2"; "sink"] else []) /\
  (all_ok = true -> links (snd r) = map link_of (link_chain with_overlay)) /\
  pad_linked demux_sink (links (snd r)) = false.
Proof.
  intros g0 overlay r all_ok.
  assert (Hr : r = r) by reflexivity. unfold r at 2 in Hr. clearbody r.
  subst all_ok overlay g0. unfold link_chain.
  destruct with_overlay;
    cbn [forallb app fst snd map];
    unfold gst_element_link_many in Hr;
    cbn [gst_bin_add_many links with_links world quit_requested timeout_active window_shown
         video_window bus location children app] in Hr;
    link_all Hr.
Qed.

(** X14. What [main] asserts.  It aborts exactly when one of the seven
    factories rtspsrc, rtph264depay, h264parse, capsfilter, avdec_h264,
    videoconvert and ximagesink is missing: the assertions after the making
    of [faceblur] and [facedetect] test [sink] again, so neither of the two
    is required; and whether faceblur can be made changes nothing of what
    [main] builds, the element being put nowhere. *)
Theorem main_asserts_seven_factories (registry : gset string)
    (link_ok : GstElement -> GstElement -> bool) (g : Gui) :
  (is_Some (main_pipeline registry link_ok g) <-> asserted_factories ⊆ registry) /\
  (main_pipeline registry link_ok g = None <-> ~ asserted_factories ⊆ registry) /\
  main_pipeline (registry ∪ {["faceblur"]}) link_ok g =
    main_pipeline (registry ∖ {["faceblur"]}) link_ok g.
Proof.
  split; [apply main_pipeline_aborts|]. split.
  - rewrite <- main_pipeline_aborts, <- eq_None_not_Some. reflexivity.
  - unfold main_pipeline, gst_element_factory_make.
    repeat match goal with
           | |- context [bool_decide (?f ∈ registry ∪ {["faceblur"]})] =>
               rewrite (proj1 (faceblur_not_asked registry f ltac:(discriminate)))
           | |- context [bool_decide (?f ∈ registry ∖ {["faceblur"]})] =>
               rewrite (proj2 (faceblur_not_asked registry f ltac:(discriminate)))
           end.
    reflexivity.
Qed.

Lemma main_asserts_seven_factories_witness :
  is_Some (main_pipeline asserted_factories (fun _ _ => true) viewer_gui) /\
  main_pipeline (asserted_factories ∖ {["ximagesink"]}) (fun _ _ => true) viewer_gui = None.
Proof.
  destruct (main_asserts_seven_factories asserted_factories (fun _ _ => true) viewer_gui)
    as [H _].
  destruct (main_asserts_seven_factories (asserted_factories ∖ {["ximagesink"]})
              (fun _ _ => true) viewer_gui) as (_ & H' & _).
  split.
  - apply H. reflexivity.
  - apply H'. intros Hsub.
    assert (Hin : "ximagesink" ∈ asserted_factories ∖ {["ximagesink"]}).
    { apply Hsub. vm_compute. reflexivity. }
    vm_compute in Hin. discriminate Hin.
Defined.

Lemma main_pipeline_unfold (registry : gset string)
    (link_ok : GstElement -> GstElement -> bool)
    (w : World) (q ta ws : bool) (vw : list CairoOp) (b : list GstMessage)
    (loc : option string) (ch : list GstElement) (lk : list (GstPad * GstPad)) :
  asserted_factories ⊆ registry ->
  main_pipeline registry link_ok (mkGui w q ta ws vw b loc ch lk) =
    Some (let overlay := if bool_decide ("facedetect" ∈ registry)
                         then Some facedetect else None in
          let r := gst_element_link_many link_ok
                     [Some "demux"; Some "parse"; Some "filter"; Some "decodebin";
                      Some "videoConvert"; overlay; Some "videoConvert2"; Some "sink"]
                     (gst_bin_add_many
                        [Some "source"; Some "demux"; Some "parse"; Some "filter";
                         Some "decodebin"; Some "videoConvert"; overlay;
                         Some "videoConvert2"; Some "sink"]
                        (mkGui (run (g_object_set (Some "source") "latency" 200) w)
                               q ta ws vw b (Some "rtsp://10.178.134.100:8554/test") ch lk)) in
          if fst r then snd r
          else in_world (printf (nl +:+ "Failed to link parse to sink")) (snd r)).
Proof.
  intros Ha.
  apply asserted_factories_spec in Ha. destruct Ha as (H1 & H2 & H3 & H4 & H5 & H6 & H7).
  unfold main_pipeline, gst_element_factory_make.
  rewrite H1, H2, H3, H4, H5, H6, H7. reflexivity.
Qed.

(** X15. What [main] builds once the assertions hold.  The source gets its
    location and a latency of 200, and the bin its elements in order up to
    the first converter; the overlay, the second converter and the sink
    follow only if [facedetect] was made: without it both argument lists end
    at its [NULL].  The links asked for are those of the elements added,
    none of them into the sink pad of the depayloader, and "Failed to link
    parse to sink" is printed exactly when one of them is refused: so a
    missing facedetect plugin leaves a pipeline without sink and reports
    nothing. *)
Theorem main_pipeline_built (registry : gset string)
    (link_ok : GstElement -> GstElement -> bool) (g : Gui) :
  asserted_factories ⊆ registry ->
  children g = [] ->
  links g = [] ->
  let with_overlay := bool_decide ("facedetect" ∈ registry) in
  let all_ok := forallb (fun p => link_ok (fst p) (snd p)) (link_chain with_overlay) in
  exists g',
    main_pipeline registry link_ok g = Some g' /\
    location g' = Some "rtsp://10.178.134.100:8554/test" /\
    properties (world g') !! ("source", "latency") = Some 200 /\
    children g' =
      ["source"; "demux"; "parse"; "filter"; "decodebin"; "videoConvert"] ++
      (if with_overlay then [facedetect; "videoConvert2"; "sink"] else []) /\
    (all_ok = true -> links g' = map link_of (link_chain with_overlay)) /\
    pad_linked demux_sink (links g') = false /\
    gui_emitted g g' =
      E_object_set (Some "source") "latency" 200 ::
      (if all_ok then [] else [E_print (nl +:+ "Failed to link parse to sink")]).
Proof.
  intros Ha Hch Hl. cbv zeta.
  destruct g as [w q ta ws vw b loc ch lk]. simpl in Hch, Hl. subst ch lk.
  rewrite (main_pipeline_unfold registry link_ok w q ta ws vw b loc [] [] Ha).
  cbv zeta.
  pose proof (link_many_result link_ok (bool_decide ("facedetect" ∈ registry))
                (run (g_object_set (Some "source") "latency" 200) w) q ta ws vw b
                (Some "rtsp://10.178.134.100:8554/test")) as HR.
  cbv zeta in HR.
  assert (Hw' : properties (run (g_object_set (Some "source") "latency" 200) w)
                  !! ("source", "latency") = Some 200 /\
                trace (run (g_object_set (Some "source") "latency" 200) w) =
                  trace w ++ [E_object_set (Some "source") "latency" 200]).
  { split; [apply lookup_insert_eq | reflexivity]. }
  revert HR Hw'.
  generalize (run (g_object_set (Some "source") "latency" 200) w). intros w'.
  generalize (gst_element_link_many link_ok
       [Some "demux"; Some "parse"; Some "filter"; Some "decodebin"; 
        Some "videoConvert";
        if bool_decide ("facedetect" ∈ registry) then Some facedetect else None;
        Some "videoConvert2"; Some "sink"]
       (gst_bin_add_many
          [Some "source"; Some "demux"; Some "parse"; Some "filter"; 
           Some "decodebin"; Some "videoConvert";
           if bool_decide ("facedetect" ∈ registry) then Some facedetect else None;
           Some "videoConvert2"; Some "sink"]
          (mkGui w' q ta ws vw b (Some "rtsp://10.178.134.100:8554/test") [] []))).
  intros R (Hok & Hw & Hloc & Hchildren & Hlinks & Hfree) [Hprop Htrace].
  rewrite Hok.
  eexists. split; [reflexivity|].
  destruct (forallb _ (link_chain _)).
  - rewrite Hw. do 5 (split; [assumption|]).
    apply gui_emitted_intro. cbn [world]. rewrite Hw. exact Htrace.
  - change (world (in_world (printf (nl +:+ "Failed to link parse to sink")) R.2))
      with (run (printf (nl +:+ "Failed to link parse to sink")) (world R.2)).
    change (location (in_world (printf (nl +:+ "Failed to link parse to sink")) R.2))
      with (location R.2).
    change (children (in_world (printf (nl +:+ "Failed to link parse to sink")) R.2))
      with (children R.2).
    change (links (in_world (printf (nl +:+ "Failed to link parse to sink")) R.2))
      with (links R.2).
    rewrite Hw.
    do 2 (split; [assumption|]). split; [assumption|].
    split; [discriminate|]. split; [assumption|].
    apply gui_emitted_intro. cbn [world].
    change (trace (world (in_world (printf (nl +:+ "Failed to link parse to sink")) R.2)))
      with (trace (world R.2) ++ [E_print (nl +:+ "Failed to link parse to sink")]).
    rewrite Hw.
    rewrite Htrace, <- app_assoc. reflexivity.
Qed.

Lemma main_pipeline_built_witness :
  exists g',
    main_pipeline asserted_factories (fun _ _ => true) (desktop (start silent)) = Some g' /\
    children g' = ["source"; "demux"; "parse"; "filter"; "decodebin"; "videoConvert"] /\
    gui_emitted (desktop (start silent)) g' = [E_object_set (Some "source") "latency" 200].
Proof.
  destruct (main_pipeline_built asserted_factories (fun _ _ => true) (desktop (start silent)))
    as (g' & H & _ & _ & Hc & _ & _ & He); [reflexivity | reflexivity | reflexivity |].
  exists g'. split; [exact H|]. split; [exact Hc | exact He].
Defined.
